(** * Smart finance tools: evidence gathering and synthesis pipeline

    A shallow embedding of the Python sources
    [tools/news_summary.py], [tools/mops_report.py], [mc.py], [mo.py] and
    the corpus assembly of [server.py], followed by the properties of the
    pipeline that the specification states.

    Python values are modelled as follows.
    - [str] is a sequence of Unicode code points ([list N]); literals are
      written in UTF-8 and decoded by [utf8].
    - [int] is [Z].
    - A [dict] with a fixed set of keys (an article, a filing table) is a
      record; a [dict] used as a map is a [gmap]; a parsed JSON document is a
      value of [json].
    - A cache file is kept by what it holds ([file_content]): the output of
      [json.dump] for a value, read back by [json_reload], or something that
      cannot be read.
    - Effects (network requests, language-model calls, cache files,
      exceptions) are threaded through the monad [M]: a computation takes a
      [world] (cache files and the trace of requests issued so far) and
      gives an [outcome] (returned value or raised exception) and the new
      world. What the outside world answers is given by an [env] of oracles,
      each indexed by the time of the request (the number of requests issued
      before it), so the same address may answer differently each time. *)

From stdpp Require Import gmap list list_numbers pretty strings.
From Stdlib Require Import ZArith Lia.

Local Open Scope Z_scope.

(** ** Python strings *)

Abbreviation pystr := (list N).

(** One step of the UTF-8 decoder: [out] is the reversed output, [cur] the
    code point under construction and [need] the number of continuation
    bytes still expected. *)
Definition utf8_step (st : list N * N * nat) (b : N) : list N * N * nat :=
  let '(out, cur, need) := st in
  match need with
  | O =>
      if (b <? 128)%N then (b :: out, 0%N, O)
      else if (b <? 224)%N then (out, (b - 192)%N, 1%nat)
      else if (b <? 240)%N then (out, (b - 224)%N, 2%nat)
      else (out, (b - 240)%N, 3%nat)
  | S O => ((cur * 64 + (b - 128))%N :: out, 0%N, O)
  | S n => (out, (cur * 64 + (b - 128))%N, n)
  end.

Definition utf8 (s : string) : pystr :=
  let bytes := Ascii.N_of_ascii <$> String.list_ascii_of_string s in
  reverse (fold_left utf8_step bytes ([], 0%N, O)).1.1.

(** [str(n)] for an [int]. *)
Definition str_int (n : Z) : pystr := utf8 (pretty n).

(** [str.isspace] on one code point (CPython's [_PyUnicode_IsWhitespace]). *)
Definition isspace (c : N) : bool :=
  ((9 <=? c) && (c <=? 13) || (28 <=? c) && (c <=? 32)
   || (c =? 133) || (c =? 160) || (c =? 5760)
   || (8192 <=? c) && (c <=? 8202)
   || (c =? 8232) || (c =? 8233) || (c =? 8239) || (c =? 8287)
   || (c =? 12288))%N.

Fixpoint lstrip (s : pystr) : pystr :=
  match s with
  | c :: s' => if isspace c then lstrip s' else s
  | [] => []
  end.

Definition rstrip (s : pystr) : pystr := reverse (lstrip (reverse s)).

(** [s.strip()] *)
Definition strip (s : pystr) : pystr := lstrip (rstrip s).

(** [sep.join(parts)] *)
Fixpoint join (sep : pystr) (parts : list pystr) : pystr :=
  match parts with
  | [] => []
  | [p] => p
  | p :: rest => p ++ sep ++ join sep rest
  end.

(** [l[:n]] for a list or a string and an [int] bound: a negative bound
    counts from the end. *)
Definition slice_to {A} (n : Z) (l : list A) : list A :=
  if 0 <=? n then take (Z.to_nat n) l
  else take (length l - Z.to_nat (- n)) l.

(** [range(1, n + 1)] *)
Definition range1 (n : Z) : list Z := seqZ 1 n.

(** ** Exceptions *)

Inductive exn :=
| JSONDecodeError (msg : pystr)
| KeyError (key : pystr)
| TypeError (msg : pystr)
| AttributeError (msg : pystr)
| Error (msg : pystr).   (* any other exception: network, browser, API *)

(** [str(e)], as an f-string renders the exception. *)
Definition str_exn (e : exn) : pystr :=
  match e with
  | JSONDecodeError m | TypeError m | AttributeError m | Error m => m
  | KeyError k => utf8 "'" ++ k ++ utf8 "'"
  end.

(** ** JSON documents and the values read out of them *)

(** What [json.loads] gives. Numbers with a fraction are left out: the
    pipeline reads the entries "error", "raw", "company", "stock_id" and
    "topic" only, and tests or prints them. *)

#[local] Unset Elimination Schemes.
Inductive json :=
| JNull
| JBool (b : bool)
| JInt (n : Z)
| JStr (s : pystr)
| JArr (items : list json)
| JObj (fields : list (pystr * json)).
#[local] Set Elimination Schemes.

(** ** Data model *)

(** An article as [crawl_etnews_articles] builds it. *)
Record article := Article {
  title : pystr;
  link : pystr;
  date : pystr;
  content : pystr;
  keyword : pystr
}.

(** A column label or a cell of a [DataFrame], as [to_dict] hands it over:
    [pd.read_html] labels the columns of a table without a header row
    0, 1, 2, ..., reads numeric cells as numbers and leaves NaN where a cell
    is empty. A finite [float] is kept by its [repr]. *)
Inductive scalar :=
| SNone
| SBool (b : bool)
| SInt (n : Z)
| SFloat (repr : pystr)
| SNaN
| SInf (negative : bool)
| SStr (s : pystr).

#[global] Instance scalar_eq_dec : EqDecision scalar.
Proof. solve_decision. Defined.

(** One record of [df.to_dict(orient="records")]: a [dict] from column
    label to cell, in the order of the columns. *)
Abbreviation row := (list (scalar * scalar)).

(** One filing table: [{"table_index": .., "preview": .., "data": ..}]. *)
Record table := Table {
  table_index : Z;
  preview : pystr;
  data : list (list (scalar * scalar))
}.

(** The value kept for one composite key: [None] is Python's [None]. *)
Abbreviation filing := (option (list table)).

(** What [fetch_mops_report] returns: composite key to filing. *)
Abbreviation results := (gmap (list N) (option (list table))).

(** ** What the scraped pages hold *)

(** The [h2 a] element of a search result. *)
Record anchor := Anchor {
  a_text : pystr;
  a_href : option pystr
}.

(** One [.box_2] element of a search page: [select_one] gives [None] when
    the element is missing; of the date element only the text is used. *)
Record box := Box {
  title_tag : option anchor;
  date_tag : option pystr
}.

(** One [table] element of a filing page: [None] when [pd.read_html] or
    the conversion raises, else the preview and the rows. *)
Abbreviation raw_table := (option (pystr * list (list (scalar * scalar)))).

(** The page the browser holds after [driver.get]: either waiting for a
    [table] element raises (the 15 s deadline, or any other failure inside
    the [try]), or the page source holds these tables. *)
Inductive page :=
| WaitFails (e : exn)
| Loaded (tables : list raw_table).

(** ** JSON files *)

(** The key [json.dump] writes for a [dict] key: a [str] as it is, an
    [int] by its digits, a [float] by its [repr] or as NaN, Infinity,
    -Infinity, [True], [False] and [None] as true, false and null. *)
Definition json_key (k : scalar) : pystr :=
  match k with
  | SStr s => s
  | SInt n => str_int n
  | SFloat r => r
  | SNaN => utf8 "NaN"
  | SInf false => utf8 "Infinity"
  | SInf true => utf8 "-Infinity"
  | SBool true => utf8 "true"
  | SBool false => utf8 "false"
  | SNone => utf8 "null"
  end.

(** [d[k] = v] for a [str] key, on a [dict] kept as the list of its items:
    a key already present keeps its place and takes the new value. *)
Fixpoint dict_set (k : pystr) (v : scalar) (d : row) : row :=
  match d with
  | [] => [(SStr k, v)]
  | (k', v') :: d' =>
      if decide (k' = SStr k) then (k', v) :: d'
      else (k', v') :: dict_set k v d'
  end.

(** [json.load] of what [json.dump] wrote for one record: every key has
    become a string, the cells are read back as they were written, and of
    two keys written alike the later value is kept. *)
Definition reload_row (r : row) : row :=
  foldl (λ d kv, dict_set (json_key kv.1) kv.2 d) [] r.

Definition reload_table (t : table) : table :=
  Table (table_index t) (preview t) (reload_row <$> data t).

(** [json.load] of what [json.dump] wrote for [v]. *)
Definition json_reload (v : filing) : filing :=
  match v with
  | Some all_tables => Some (reload_table <$> all_tables)
  | None => None
  end.

(** What a cache file holds: the complete output of [json.dump] for a
    value, or anything [open] or [json.load] rejects (an empty file, a file
    whose writing was cut short, text that is not JSON). *)
Inductive file_content :=
| Dumped (v : filing)
| Unreadable (e : exn).

(** ** The world *)

Inductive event :=
| ChatCreate (prompt : pystr)      (* client.chat.completions.create *)
| SearchGet (url : pystr)          (* sess.get(url, timeout=15.0) *)
| ArticleGet (url : pystr)         (* sess.get(link, timeout=20.0) *)
| DriverGet (url : pystr).         (* webdriver.Chrome + driver.get(url) *)

Record world := World {
  files : gmap (list N) file_content;            (* file name to content *)
  trace : list event                             (* requests, oldest first *)
}.

Definition now (w : world) : nat := length (trace w).

(** The collaborators. Requests are answered by time and address. *)
Record env := Env {
  (** the completion text, or the exception of the call *)
  chat_create : nat → pystr → exn + pystr;
  (** search page: the [.box_2] elements, or the exception of
      [sess.get]/[raise_for_status] *)
  search_get : nat → pystr → exn + list box;
  (** article page: the text of [#main-content] or [.story] ([None] when
      neither exists), or the exception of the fetch *)
  article_get : nat → pystr → exn + option pystr;
  (** filing page: the rendered page, or the exception of
      [webdriver.Chrome]/[driver.get] *)
  driver_get : nat → pystr → exn + page;
  (** [json.loads]: the document, or the exception raised: a
      [JSONDecodeError] for text that is not JSON, another exception such
      as [RecursionError] for text nested too deeply *)
  json_loads : pystr → exn + json;
  (** [str] of a JSON array or object *)
  py_repr : json → pystr;
  (** [json.dumps(reports, ensure_ascii=False, indent=2)] *)
  json_dumps : pystr + gmap (list N) (option (list table)) → pystr;
  (** [re.search(r"\d{4}-\d{2}-\d{2}", text)]: [group(0)] of the match *)
  re_search_date : pystr → option pystr;
  (** [open(filename, "w")]: the exception when the file cannot be
      created *)
  open_write : nat → pystr → option exn;
  (** [json.dump(all_tables, f, ...)] stopping half way (a cell that is
      not serialisable, a full disk): the exception that leaves the [with]
      block, and the one reading the file left behind raises *)
  dump_error : list table → option (exn * exn)
}.

(** ** The monad of effects *)

Inductive outcome (A : Type) :=
| Returned (a : A)
| Raised (e : exn).
Arguments Returned {A} a.
Arguments Raised {A} e.

Definition M (A : Type) : Type := world → outcome A * world.

Definition ret {A} (a : A) : M A := λ w, (Returned a, w).

Definition raise {A} (e : exn) : M A := λ w, (Raised e, w).

Definition bind {A B} (m : M A) (k : A → M B) : M B :=
  λ w, match m w with
       | (Returned a, w') => k a w'
       | (Raised e, w') => (Raised e, w')
       end.

Notation "x <- m ;; k" := (bind m (λ x, k))
  (at level 100, m at next level, right associativity).

(** [try: m  except Exception as e: handler e] *)
Definition try_except {A} (m : M A) (handler : exn → M A) : M A :=
  λ w, match m w with
       | (Returned a, w') => (Returned a, w')
       | (Raised e, w') => handler e w'
       end.

(** [for x in l: s = body x s], where [s] stands for the variables the
    loop body assigns. *)
Fixpoint for_each {A S} (l : list A) (body : A → S → M S) (s : S) : M S :=
  match l with
  | [] => ret s
  | x :: l' => s' <- body x s ;; for_each l' body s'
  end.

(** Issue a request: record it, then answer as the oracle says. *)
Definition request {A} (ev : event) (answer : nat → exn + A) : M A :=
  λ w, let w' := World (files w) (trace w ++ [ev]) in
       match answer (now w) with
       | inl e => (Raised e, w')
       | inr a => (Returned a, w')
       end.

(** ** tools/news_summary.py *)

Module news_summary.
Section with_env.
Context (E : env).

(** [title_tag["href"]] *)
Definition getitem_href (t : anchor) : M pystr :=
  match a_href t with
  | Some h => ret h
  | None => raise (KeyError (utf8 "href"))
  end.

(** The body of [for box in soup.select(".box_2")]. *)
Definition crawl_box (keyword : pystr) (b : box) (articles : list article)
  : M (list article) :=
  match title_tag b, date_tag b with
  | Some title_tag, Some date_text =>
      let title := strip (a_text title_tag) in
      link <- getitem_href title_tag ;;
      let news_date := default [] (re_search_date E date_text) in
      content <- try_except
        (main <- request (ArticleGet link) (λ t, article_get E t link) ;;
         ret (default (utf8 "(無法取得內文)") main))
        (λ e, ret (utf8 "(抓取失敗: " ++ str_exn e ++ utf8 ")")) ;;
      ret (articles ++ [Article title link news_date content keyword])
  | _, _ => ret articles
  end.

(** The body of [for page in range(1, pages + 1)]. *)
Definition crawl_page (keyword : pystr) (page : Z) (articles : list article)
  : M (list article) :=
  let url := utf8 "https://www.ettoday.net/news_search/doSearch.php?keywords="
             ++ keyword ++ utf8 "&page=" ++ str_int page in
  res <- try_except
    (boxes <- request (SearchGet url) (λ t, search_get E t url) ;;
     ret (Some boxes))
    (λ e, ret None) ;;                             (* continue *)
  match res with
  | None => ret articles
  | Some boxes => for_each boxes (crawl_box keyword) articles
  end.

Definition crawl_etnews_articles (keyword : pystr) (pages : Z)
  : M (list article) :=
  for_each (range1 pages) (crawl_page keyword) [].

End with_env.
End news_summary.

(** ** tools/mops_report.py *)

Module mops_report.
Section with_env.
Context (E : env).

(** [key = f"{stock_id}_{year}Q{season}"] *)
Definition composite_key (stock_id : pystr) (year season : Z) : pystr :=
  stock_id ++ utf8 "_" ++ str_int year ++ utf8 "Q" ++ str_int season.

(** [filename = f"{key}.json"] *)
Definition filename_of (key : pystr) : pystr := key ++ utf8 ".json".

Definition report_url (stock_id : pystr) (year season : Z) : pystr :=
  utf8 "https://mopsov.twse.com.tw/server-java/t164sb01?step=3&CO_ID="
  ++ stock_id ++ utf8 "&SYEAR=" ++ str_int year
  ++ utf8 "&SSEASON=" ++ str_int season ++ utf8 "&REPORT_ID=C".

(** [os.path.exists(filename)] followed by [open] and [json.load]: [None]
    when there is no such file, else what the file reads back as; a file
    that cannot be read raises. *)
Definition read_cache (filename : pystr) : M (option filing) :=
  λ w, match files w !! filename with
       | None => (Returned None, w)
       | Some (Dumped v) => (Returned (Some (json_reload v)), w)
       | Some (Unreadable e) => (Raised e, w)
       end.

(** [with open(filename, "w", ...) as f: json.dump(all_tables, f, ...)]:
    [open] may raise, and nothing is created; [json.dump] may raise after
    [open] has created the file, which is then left cut short. *)
Definition write_cache (filename : pystr) (all_tables : list table) : M unit :=
  λ w, match open_write E (now w) filename with
       | Some e => (Raised e, w)
       | None =>
           match dump_error E all_tables with
           | None =>
               (Returned tt,
                World (<[filename := Dumped (Some all_tables)]> (files w))
                      (trace w))
           | Some (e, e_read) =>
               (Raised e,
                World (<[filename := Unreadable e_read]> (files w)) (trace w))
           end
       end.

(** [for idx, table in enumerate(tables[:5])]: a table whose conversion
    raises is skipped, the others keep their position as [table_index]. *)
Definition parse_tables (tables : list raw_table) : list table :=
  omap id
    (imap (λ idx t, (λ pd : pystr * _, Table (Z.of_nat idx) pd.1 pd.2) <$> t)
          (slice_to 5 tables)).

(** The body of the innermost loop, for one combination. The cache is read
    and the browser started before the [try]; [driver.quit()] in the
    [finally] is taken to return. *)
Definition fetch_one (stock_id : pystr) (year season : Z)
    (all_results : results) : M results :=
  let key := composite_key stock_id year season in
  let filename := filename_of key in
  cached <- read_cache filename ;;
  match cached with
  | Some v => ret (<[key := v]> all_results)        (* continue *)
  | None =>
      let url := report_url stock_id year season in
      pg <- request (DriverGet url) (λ t, driver_get E t url) ;;
      try_except
        (tables <- match pg with
                   | WaitFails e => raise e
                   | Loaded tables => ret tables
                   end ;;
         let all_tables := parse_tables tables in
         _ <- write_cache filename all_tables ;;
         ret (<[key := Some all_tables]> all_results))
        (λ e, ret (<[key := None]> all_results))
  end.

Definition fetch_mops_report (stock_ids : list pystr) (years seasons : list Z)
  : M results :=
  for_each stock_ids (λ stock_id,
    for_each years (λ year,
      for_each seasons (λ season,
        fetch_one stock_id year season))) ∅.

End with_env.
End mops_report.

(** ** Operations on parsed JSON values *)

Definition pystr_eqb (a b : pystr) : bool := bool_decide (a = b).

(** [needle in haystack] for two strings. *)
Fixpoint str_contains (needle haystack : pystr) : bool :=
  match haystack with
  | [] => pystr_eqb needle []
  | _ :: rest =>
      pystr_eqb (take (length needle) haystack) needle
      || str_contains needle rest
  end.

Definition type_name (v : json) : pystr :=
  match v with
  | JNull => utf8 "NoneType"
  | JBool _ => utf8 "bool"
  | JInt _ => utf8 "int"
  | JStr _ => utf8 "str"
  | JArr _ => utf8 "list"
  | JObj _ => utf8 "dict"
  end.

(** [key in v] for a string [key]. *)
Definition py_in (key : pystr) (v : json) : M bool :=
  match v with
  | JObj fields => ret (existsb (λ kv, pystr_eqb kv.1 key) fields)
  | JArr items =>
      ret (existsb (λ x, match x with JStr s => pystr_eqb s key | _ => false end)
                   items)
  | JStr s => ret (str_contains key s)
  | _ => raise (TypeError (utf8 "argument of type '" ++ type_name v
                           ++ utf8 "' is not iterable"))
  end.

Definition dict_lookup (key : pystr) (fields : list (pystr * json))
  : option json :=
  (λ found : nat * (pystr * json), found.2.2)
    <$> list_find (λ kv, kv.1 = key) fields.

(** [v.get(key, dflt)] *)
Definition py_get (v : json) (key : pystr) (dflt : json) : M json :=
  match v with
  | JObj fields => ret (default dflt (dict_lookup key fields))
  | _ => raise (AttributeError (utf8 "'" ++ type_name v
                                ++ utf8 "' object has no attribute 'get'"))
  end.

(** [v[key]] for a string [key]. *)
Definition py_getitem (v : json) (key : pystr) : M json :=
  match v with
  | JObj fields =>
      match dict_lookup key fields with
      | Some x => ret x
      | None => raise (KeyError key)
      end
  | JArr _ => raise (TypeError (utf8 "list indices must be integers or slices, not str"))
  | JStr _ => raise (TypeError (utf8 "string indices must be integers, not 'str'"))
  | _ => raise (TypeError (utf8 "'" ++ type_name v
                           ++ utf8 "' object is not subscriptable"))
  end.

(** Truth value of [v] in [if v:]. *)
Definition truthy (v : json) : bool :=
  match v with
  | JNull => false
  | JBool b => b
  | JInt n => negb (n =? 0)
  | JStr s => negb (pystr_eqb s [])
  | JArr items => match items with [] => false | _ => true end
  | JObj fields => match fields with [] => false | _ => true end
  end.

(** [str(v)], as an f-string renders [v]. *)
Definition py_str (E : env) (v : json) : pystr :=
  match v with
  | JNull => utf8 "None"
  | JBool true => utf8 "True"
  | JBool false => utf8 "False"
  | JInt n => str_int n
  | JStr s => s
  | JArr _ | JObj _ => py_repr E v
  end.

Definition nl : pystr := [10%N].

(** The prompt of [parse_question], the same text in [mc.py] and [mo.py]. *)
Definition parse_prompt (question : pystr) : pystr :=
  utf8 "
你是一個財經語意分析助手，請將下列問題解析為結構化的 JSON 格式。若有缺漏資訊，請合理推測或補齊。

問題：
「" ++ question ++ utf8 "」

請輸出以下欄位（直接以 JSON 格式回傳）：
- company：公司名稱（若無則為空字串）
- stock_id：股票代號（必須是數字）
- topic：問題主題（如財報、營收、法說會、關稅等）

stock_id 與 company 為必填。
請**只輸出純 JSON格式**，不要加註解，不要加反引號。
".

(** What [etnews_finance_summary] returns: the error dictionary
    [{"status": "error", "message": .., "raw": ..}] or a string. *)
Inductive summary_result :=
| ErrorDict (message : pystr) (raw : json)
| Text (s : pystr).

(** ** mc.py *)

Module mc.
Section with_env.
Context (E : env).

Definition parse_question (question : pystr) : M json :=
  let prompt := parse_prompt question in
  chat <- request (ChatCreate prompt) (λ t, chat_create E t prompt) ;;
  let result := strip chat in
  match json_loads E result with
  | inr v => ret v
  | inl e =>
      ret (JObj [(utf8 "error", JStr (utf8 "解析失敗：" ++ str_exn e));
                 (utf8 "raw", JStr result)])
  end.

(** [_crawl_ettoday]: the text of [crawl_etnews_articles] without its
    message to the console. *)
Definition _crawl_ettoday (keyword : pystr) (pages : Z) : M (list article) :=
  for_each (range1 pages)
    (λ page articles,
       let url := utf8 "https://www.ettoday.net/news_search/doSearch.php?keywords="
                  ++ keyword ++ utf8 "&page=" ++ str_int page in
       res <- try_except
         (boxes <- request (SearchGet url) (λ t, search_get E t url) ;;
          ret (Some boxes))
         (λ e, ret None) ;;
       match res with
       | None => ret articles
       | Some boxes =>
           for_each boxes (news_summary.crawl_box E keyword) articles
       end)
    [].

(** One element of [docs]: the block of article [a] at position [i]. *)
Definition doc (i : nat) (a : article) : pystr :=
  utf8 "【第 " ++ str_int (Z.of_nat i + 1) ++ utf8 " 篇】" ++ nl
  ++ utf8 "標題：" ++ title a ++ nl
  ++ utf8 "連結：" ++ link a ++ nl
  ++ utf8 "內文：" ++ nl ++ slice_to 3000 (content a) ++ nl.

Definition docs (articles : list article) : list pystr := imap doc articles.

Definition corpus (articles : list article) : pystr := join nl (docs articles).

Definition answer_prompt (question : pystr) (articles : list article) : pystr :=
  utf8 "你是一位專業的財經分析助手。以下提供 " ++ str_int (Z.of_nat (length articles))
  ++ utf8 " 篇 ETtoday 新聞，請先整合重點，再根據使用者提問給出專業、精簡的回覆。" ++ nl ++ nl
  ++ utf8 "【使用者問題】" ++ nl ++ question ++ nl ++ nl ++ corpus articles ++ nl ++ nl
  ++ utf8 "請輸出格式：" ++ nl ++ utf8 "1️⃣ 綜合新聞摘要（重點條列）" ++ nl
  ++ utf8 "2️⃣ 針對使用者問題的回答（250 字內）".

Definition _gpt_answer (question : pystr) (articles : list article) : M pystr :=
  let prompt := answer_prompt question articles in
  chat <- request (ChatCreate prompt) (λ t, chat_create E t prompt) ;;
  ret (strip chat).

Definition etnews_finance_summary (question : pystr) (pages limit : Z)
  : M summary_result :=
  parsed <- parse_question question ;;
  failed <- py_in (utf8 "error") parsed ;;
  if failed : bool then
    err <- py_getitem parsed (utf8 "error") ;;
    raw <- py_get parsed (utf8 "raw") (JStr []) ;;
    ret (ErrorDict (utf8 "問題解析失敗：" ++ py_str E err) raw)
  else
    company <- py_get parsed (utf8 "company") (JStr []) ;;
    topic <- py_get parsed (utf8 "topic") (JStr []) ;;
    let keyword := strip (py_str E company ++ py_str E topic) in
    if keyword is [] then ret (Text (utf8 "⚠️ 無法組出有效關鍵字"))
    else
      articles <- _crawl_ettoday keyword pages ;;
      if articles is [] then
        ret (Text (utf8 "⚠️ 找不到符合條件的新聞。請換個問題試試。"))
      else
        answer <- _gpt_answer question (slice_to limit articles) ;;
        ret (Text answer).

End with_env.
End mc.

(** ** mo.py *)

Module mo.
Section with_env.
Context (E : env).

(** The [try] spans the model call and [json.loads]. The first handler
    takes a [JSONDecodeError] and reads [result], which is assigned only
    after the model call returned; the second takes every other exception,
    of the model call or of [json.loads], and gives no "raw" entry. *)
Definition parse_question (question : pystr) : M json :=
  let prompt := parse_prompt question in
  chatted <- try_except
    (chat <- request (ChatCreate prompt) (λ t, chat_create E t prompt) ;;
     ret (inr (strip chat)))
    (λ e, ret (inl e)) ;;
  match chatted with
  | inr result =>
      match json_loads E result with
      | inr v => ret v
      | inl (JSONDecodeError msg) =>
          ret (JObj [(utf8 "error",
                      JStr (utf8 "解析失敗：無法解析 JSON: " ++ msg));
                     (utf8 "raw", JStr result)])
      | inl e =>
          ret (JObj [(utf8 "error", JStr (utf8 "解析失敗：" ++ str_exn e))])
      end
  | inl (JSONDecodeError _) =>
      raise (Error (utf8 "cannot access local variable 'result' where it is not associated with a value"))
  | inl e => ret (JObj [(utf8 "error", JStr (utf8 "解析失敗：" ++ str_exn e))])
  end.

(** The end of [analyze_financial_data], from the comment "使用 GPT 分析資料"
    on: the prompt from what was gathered, and the model call. *)
Definition analyze_answer (question : pystr) (stock_id company : json)
    (news : list article) (reports : pystr + results) : M pystr :=
  let news_summary :=
    if news is [] then utf8 "未找到相關新聞"
    else join (nl ++ utf8 "---" ++ nl)
           ((λ a, utf8 "標題：" ++ title a ++ nl ++ utf8 "日期：" ++ date a ++ nl
                  ++ utf8 "摘要：" ++ slice_to 300 (content a) ++ utf8 "...")
            <$> slice_to 3 news) in
  let prompt :=
    utf8 "
我正在分析關於 " ++ py_str E company ++ utf8 " (股票代號: " ++ py_str E stock_id
    ++ utf8 ") 的財經資訊，請根據以下資料回答問題：

【問題】
" ++ question ++ utf8 "

【新聞資料】
找到 " ++ str_int (Z.of_nat (length news)) ++ utf8 " 篇相關新聞:
" ++ news_summary ++ utf8 "

【財報資料】
" ++ slice_to 2000 (json_dumps E reports) ++ utf8 "...

請針對問題提供簡短但有深度的分析，提供具體數據支持，並給出風險評估與建議。語氣專業但易懂。
" in
  try_except
    (response <- request (ChatCreate prompt) (λ t, chat_create E t prompt) ;;
     ret (strip response))
    (λ e, ret (utf8 "❌ 分析失敗：" ++ str_exn e)).

(** The middle of [analyze_financial_data], from the comment "收集新聞文章"
    on, with the three variables as they stand after the optional parse. *)
Definition analyze_gathered (question : pystr) (stock_id company topic : json)
    (pages : Z) : M pystr :=
  let keyword := strip (py_str E company ++ py_str E topic) in
  news <- (if keyword is [] then ret []
           else news_summary.crawl_etnews_articles E keyword pages) ;;
  reports <- (if truthy stock_id then
                try_except
                  (r <- mops_report.fetch_mops_report E
                          [py_str E stock_id] [2024; 2023] [1; 4] ;;
                   ret (inr r))
                  (λ e, ret (inl (utf8 "財報抓取失敗：" ++ str_exn e)))
              else ret (inr ∅)) ;;
  analyze_answer question stock_id company news reports.

Definition analyze_financial_data (question stock_id company topic : pystr)
    (pages : Z) : M pystr :=
  if negb (truthy (JStr stock_id)) || negb (truthy (JStr company)) then
    parsed <- parse_question question ;;
    failed <- py_in (utf8 "error") parsed ;;
    if failed : bool then
      err <- py_getitem parsed (utf8 "error") ;;
      ret (utf8 "⚠️ 問題解析失敗：" ++ py_str E err)
    else
      stock_id <- py_get parsed (utf8 "stock_id") (JStr []) ;;
      company <- py_get parsed (utf8 "company") (JStr []) ;;
      topic <- py_get parsed (utf8 "topic") (JStr []) ;;
      analyze_gathered question stock_id company topic pages
  else
    analyze_gathered question (JStr stock_id) (JStr company) (JStr topic) pages.

(** One element of [docs]. *)
Definition doc (i : nat) (a : article) : pystr :=
  utf8 "【第 " ++ str_int (Z.of_nat i + 1) ++ utf8 " 篇】" ++ nl
  ++ utf8 "標題：" ++ title a ++ nl
  ++ utf8 "連結：" ++ link a ++ nl
  ++ utf8 "內文：" ++ nl ++ slice_to 3000 (content a) ++ nl.

Definition docs (articles : list article) (limit : Z) : list pystr :=
  imap doc (slice_to limit articles).

Definition corpus (articles : list article) (limit : Z) : pystr :=
  join nl (docs articles limit).

Definition summary_prompt (question : pystr) (articles : list article)
    (limit : Z) : pystr :=
  utf8 "你是一位專業的財經分析助手。以下提供 "
  ++ str_int (Z.of_nat (length (slice_to limit articles)))
  ++ utf8 " 篇 ETtoday 新聞，請先整合重點，再根據使用者提問給出專業、精簡的回覆。" ++ nl ++ nl
  ++ utf8 "【使用者問題】" ++ nl ++ question ++ nl ++ nl
  ++ corpus articles limit ++ nl ++ nl
  ++ utf8 "請輸出格式：" ++ nl ++ utf8 "1️⃣ 綜合新聞摘要（重點條列）" ++ nl
  ++ utf8 "2️⃣ 針對使用者問題的回答（250 字內）".

Definition etnews_finance_summary (question : pystr) (pages limit : Z)
  : M summary_result :=
  parsed <- parse_question question ;;
  failed <- py_in (utf8 "error") parsed ;;
  if failed : bool then
    err <- py_getitem parsed (utf8 "error") ;;
    raw <- py_get parsed (utf8 "raw") (JStr []) ;;
    ret (ErrorDict (utf8 "問題解析失敗：" ++ py_str E err) raw)
  else
    company <- py_get parsed (utf8 "company") (JStr []) ;;
    topic <- py_get parsed (utf8 "topic") (JStr []) ;;
    let keyword := strip (py_str E company ++ py_str E topic) in
    if keyword is [] then ret (Text (utf8 "⚠️ 無法組出有效關鍵字"))
    else
      articles <- news_summary.crawl_etnews_articles E keyword pages ;;
      if articles is [] then
        ret (Text (utf8 "⚠️ 找不到符合條件的新聞。請換個問題試試。"))
      else
        let prompt := summary_prompt question articles limit in
        try_except
          (chat <- request (ChatCreate prompt) (λ t, chat_create E t prompt) ;;
           ret (Text (strip chat)))
          (λ e, ret (Text (utf8 "❌ GPT 分析失敗：" ++ str_exn e))).

End with_env.
End mo.

(** ** server.py: the corpus of [analyze] *)

Module server.

(** [news_text], from [news_data] ([None] when news was not requested) and
    [limit]. *)
Definition news_text (news_data : option (list article)) (limit : Z) : pystr :=
  match news_data with
  | Some ((_ :: _) as news) =>
      join nl
        (imap (λ i a,
                 utf8 "【第 " ++ str_int (Z.of_nat i + 1) ++ utf8 " 篇】" ++ nl
                 ++ utf8 "標題：" ++ title a ++ nl
                 ++ utf8 "連結：" ++ link a ++ nl
                 ++ utf8 "內文：" ++ nl ++ slice_to 3000 (content a) ++ nl)
              (slice_to limit news))
  | _ => utf8 "無"
  end.

End server.

(** * Notions used to state the properties *)

(** ** Runs and traces *)

(** What a run satisfies: [Q] on return, [R] on a raised exception. *)
Definition run_post {A} (r : outcome A * world)
    (Q : A → world → Prop) (R : exn → world → Prop) : Prop :=
  match r with
  | (Returned a, w) => Q a w
  | (Raised e, w) => R e w
  end.

(** The requests among [evs], issued from time [t0] on, that fetch an
    article: time and address of each. *)
Fixpoint article_requests (t0 : nat) (evs : list event) : list (nat * pystr) :=
  match evs with
  | [] => []
  | ArticleGet l :: evs' => (t0, l) :: article_requests (S t0) evs'
  | _ :: evs' => article_requests (S t0) evs'
  end.

Definition is_page_fetch (ev : event) : Prop :=
  match ev with
  | SearchGet _ | ArticleGet _ => True
  | _ => False
  end.

(** The [content] an article gets from the answer to its request. *)
Definition content_of (answer : exn + option pystr) : pystr :=
  match answer with
  | inl e => utf8 "(抓取失敗: " ++ str_exn e ++ utf8 ")"
  | inr main => default (utf8 "(無法取得內文)") main
  end.

(** Article [a] is the one built for the request at [req]. *)
Definition built_for (E : env) (kw : pystr) (a : article) (req : nat * pystr)
  : Prop :=
  link a = req.2 ∧ keyword a = kw ∧ content a = content_of (article_get E req.1 req.2).

(** The invariant of the crawl started in [w0]: cache files untouched, only
    page fetches issued, and the articles so far are, in order, those built
    for the article requests so far. *)
Definition crawl_inv (E : env) (kw : pystr) (w0 : world)
    (arts : list article) (w : world) : Prop :=
  files w = files w0 ∧
  ∃ evs, trace w = trace w0 ++ evs ∧ Forall is_page_fetch evs ∧
         Forall2 (built_for E kw) arts (article_requests (now w0) evs).

(** ** Concrete collaborators and runs for the examples *)

(** A search page with three results: a complete one, one without a date
    element, and another complete one. *)
Definition sample_boxes : list box :=
  [Box (Some (Anchor (utf8 " 鴻海配息創新高 ") (Some (utf8 "https://www.ettoday.net/news/1"))))
       (Some (utf8 "財經 / 2025-03-14 10:00"));
   Box (Some (Anchor (utf8 "廣告") (Some (utf8 "https://www.ettoday.net/ad"))))
       None;
   Box (Some (Anchor (utf8 "鴻海法說會") (Some (utf8 "https://www.ettoday.net/news/2"))))
       (Some (utf8 "財經"))].

(** [re.search(r"\d{4}-\d{2}-\d{2}", text)] on a text whose digits are
    the ASCII digits: the first place where the pattern matches. *)
Definition digit (c : N) : bool := ((48 <=? c) && (c <=? 57))%N.

Definition date_at (text : pystr) : bool :=
  match text with
  | y1 :: y2 :: y3 :: y4 :: 45%N :: m1 :: m2 :: 45%N :: d1 :: d2 :: _ =>
      digit y1 && digit y2 && digit y3 && digit y4
      && digit m1 && digit m2 && digit d1 && digit d2
  | _ => false
  end.

Fixpoint search_date (text : pystr) : option pystr :=
  match text with
  | [] => None
  | _ :: rest => if date_at text then Some (take 10 text) else search_date rest
  end.

(** Every search gives [sample_boxes]; the article request at time 1 times
    out, later ones give a body. The model and the browser are down. *)
Definition news_env : env :=
  Env (λ _ _, inl (Error (utf8 "Connection error.")))
      (λ _ _, inr sample_boxes)
      (λ t _, if decide (t = 1%nat) then inl (Error (utf8 "timed out"))
              else inr (Some (utf8 "鴻海今日宣布配息。")))
      (λ _ _, inl (Error (utf8 "unknown error: net::ERR_NAME_NOT_RESOLVED")))
      (λ _, inl (JSONDecodeError (utf8 "Expecting value: line 1 column 1 (char 0)")))
      (λ _, [])
      (λ _, [])
      search_date
      (λ _ _, None) (λ _, None).

Definition sample_articles : list article :=
  [Article (utf8 "鴻海配息創新高") (utf8 "https://www.ettoday.net/news/1")
           (utf8 "2025-03-14") (utf8 "(抓取失敗: timed out)") (utf8 "鴻海配息");
   Article (utf8 "鴻海法說會") (utf8 "https://www.ettoday.net/news/2")
           [] (utf8 "鴻海今日宣布配息。") (utf8 "鴻海配息")].

Definition sample_trace : list event :=
  [SearchGet (utf8 "https://www.ettoday.net/news_search/doSearch.php?keywords=鴻海配息&page=1");
   ArticleGet (utf8 "https://www.ettoday.net/news/1");
   ArticleGet (utf8 "https://www.ettoday.net/news/2")].

(** ** The filing loop, flattened *)

(** The combinations in the order [fetch_mops_report] visits them. *)
Definition combos (stock_ids : list pystr) (years seasons : list Z)
  : list (pystr * Z * Z) :=
  s ← stock_ids; y ← years; q ← seasons; [(s, y, q)].

Definition key_of (c : pystr * Z * Z) : pystr :=
  mops_report.composite_key c.1.1 c.1.2 c.2.

Definition fetch_combo (E : env) (c : pystr * Z * Z) (r : results) : M results :=
  mops_report.fetch_one E c.1.1 c.1.2 c.2 r.

(** What the cache file of [key] reads back as; [None] also when there is
    no file that can be read. *)
Definition cached_value (w : world) (key : pystr) : filing :=
  match files w !! mops_report.filename_of key with
  | Some (Dumped v) => json_reload v
  | _ => None
  end.

(** For every entry of the result: a cache file of its key that can be
    read reads back as the entry does, and without such a file the entry is
    [None]. *)
Definition cache_inv (r : results) (w : world) : Prop :=
  ∀ k v, r !! k = Some v →
    match files w !! mops_report.filename_of k with
    | Some (Dumped c) => json_reload c = json_reload v
    | _ => v = None
    end.

(** The specification's reading of the cache: every entry of the result,
    [None] included, is in the store under its key, and a second call with
    the same arguments returns the same result without a request. *)
Definition written_through_and_repeatable (E : env)
    (stock_ids : list pystr) (years seasons : list Z) (w : world) : Prop :=
  ∀ r w1,
    mops_report.fetch_mops_report E stock_ids years seasons w = (Returned r, w1) →
    (∀ k v, r !! k = Some v →
            files w1 !! mops_report.filename_of k = Some (Dumped v))
    ∧ mops_report.fetch_mops_report E stock_ids years seasons w1 = (Returned r, w1).

(** A record as [json.load] gives it: the keys are strings, no two alike. *)
Definition str_keyed (d : row) : Prop :=
  NoDup d.*1 ∧ Forall (λ k, ∃ s, k = SStr s) d.*1.

(** A record that Python finds equal to what it reads back as: distinct
    strings for keys, and no NaN among the cells (NaN differs from
    itself). *)
Definition json_native (d : row) : Prop :=
  str_keyed d ∧ Forall (λ kv, kv.2 ≠ SNaN) d.

(** A filing page with three [table] elements; the second does not
    convert. *)
Definition sample_page : page :=
  Loaded [Some (utf8 "資產 100",
                [[(SStr (utf8 "會計項目"), SStr (utf8 "資產"));
                  (SStr (utf8 "金額"), SInt 100)]]);
          None;
          Some (utf8 "負債 40",
                [[(SStr (utf8 "會計項目"), SStr (utf8 "負債"));
                  (SStr (utf8 "金額"), SInt 40)]])].

Definition sample_tables : list table :=
  [Table 0 (utf8 "資產 100")
         [[(SStr (utf8 "會計項目"), SStr (utf8 "資產"));
           (SStr (utf8 "金額"), SInt 100)]];
   Table 2 (utf8 "負債 40")
         [[(SStr (utf8 "會計項目"), SStr (utf8 "負債"));
           (SStr (utf8 "金額"), SInt 40)]]].

(** The first filing page loads; from then on the browser cannot reach the
    site and [driver.get] raises. *)
Definition offline_after_first_env : env :=
  Env (λ _ _, inl (Error (utf8 "Connection error.")))
      (λ _ _, inl (Error (utf8 "timed out")))
      (λ _ _, inl (Error (utf8 "timed out")))
      (λ t _, if decide (t = 0%nat) then inr sample_page
              else inl (Error (utf8 "unknown error: net::ERR_INTERNET_DISCONNECTED")))
      (λ _, inl (JSONDecodeError (utf8 "Expecting value: line 1 column 1 (char 0)")))
      (λ _, []) (λ _, []) (λ _, None)
      (λ _ _, None) (λ _, None).

(** No filing page ever shows a table: the wait runs into its deadline. *)
Definition no_table_env : env :=
  Env (λ _ _, inl (Error (utf8 "Connection error.")))
      (λ _ _, inl (Error (utf8 "timed out")))
      (λ _ _, inl (Error (utf8 "timed out")))
      (λ _ _, inr (WaitFails (Error (utf8 "Message: "))))
      (λ _, inl (JSONDecodeError (utf8 "Expecting value: line 1 column 1 (char 0)")))
      (λ _, []) (λ _, []) (λ _, None)
      (λ _ _, None) (λ _, None).

(** Every filing page loads [sample_page]. *)
Definition filings_env : env :=
  Env (λ _ _, inl (Error (utf8 "Connection error.")))
      (λ _ _, inl (Error (utf8 "timed out")))
      (λ _ _, inl (Error (utf8 "timed out")))
      (λ _ _, inr sample_page)
      (λ _, inl (JSONDecodeError (utf8 "Expecting value: line 1 column 1 (char 0)")))
      (λ _, []) (λ _, []) (λ _, None)
      (λ _ _, None) (λ _, None).

(** Every filing page holds one table without a header row, whose columns
    [pd.read_html] labels 0 and 1. *)
Definition headerless_env : env :=
  Env (λ _ _, inl (Error (utf8 "Connection error.")))
      (λ _ _, inl (Error (utf8 "timed out")))
      (λ _ _, inl (Error (utf8 "timed out")))
      (λ _ _, inr (Loaded [Some (utf8 "資產 100",
                                 [[(SInt 0, SStr (utf8 "資產"));
                                   (SInt 1, SInt 100)]])]))
      (λ _, inl (JSONDecodeError (utf8 "Expecting value: line 1 column 1 (char 0)")))
      (λ _, []) (λ _, []) (λ _, None)
      (λ _ _, None) (λ _, None).

Definition headerless_tables : list table :=
  [Table 0 (utf8 "資產 100")
         [[(SInt 0, SStr (utf8 "資產")); (SInt 1, SInt 100)]]].

Definition headerless_tables_read_back : list table :=
  [Table 0 (utf8 "資產 100")
         [[(SStr (utf8 "0"), SStr (utf8 "資產"));
           (SStr (utf8 "1"), SInt 100)]]].

(** What [json.load] raises on an empty file. *)
Definition cut_short_error : exn :=
  JSONDecodeError (utf8 "Expecting value: line 1 column 1 (char 0)").

(** Every filing page loads [sample_page], and the disk is full: [open]
    creates the file, and what [json.dump] wrote cannot be flushed. *)
Definition disk_full_env : env :=
  Env (λ _ _, inl (Error (utf8 "Connection error.")))
      (λ _ _, inl (Error (utf8 "timed out")))
      (λ _ _, inl (Error (utf8 "timed out")))
      (λ _ _, inr sample_page)
      (λ _, inl (JSONDecodeError (utf8 "Expecting value: line 1 column 1 (char 0)")))
      (λ _, []) (λ _, []) (λ _, None)
      (λ _ _, None)
      (λ _, Some (Error (utf8 "[Errno 28] No space left on device"),
                  cut_short_error)).

(** Every filing page loads [sample_page]; a file whose name has a slash
    in it lies in a directory that does not exist, and [open] raises
    [FileNotFoundError]. *)
Definition no_directory_env : env :=
  Env (λ _ _, inl (Error (utf8 "Connection error.")))
      (λ _ _, inl (Error (utf8 "timed out")))
      (λ _ _, inl (Error (utf8 "timed out")))
      (λ _ _, inr sample_page)
      (λ _, inl (JSONDecodeError (utf8 "Expecting value: line 1 column 1 (char 0)")))
      (λ _, []) (λ _, []) (λ _, None)
      (λ _ filename,
         if str_contains (utf8 "/") filename
         then Some (Error (utf8 "[Errno 2] No such file or directory: '"
                           ++ filename ++ utf8 "'"))
         else None)
      (λ _, None).

Definition url_2330 : pystr :=
  utf8 "https://mopsov.twse.com.tw/server-java/t164sb01?step=3&CO_ID=2330&SYEAR=2024&SSEASON=1&REPORT_ID=C".

(** The mapping and the world after the filing of 2330 for 2024 Q1 was
    fetched once from [sample_page]. *)
Definition sample_result : results :=
  {[utf8 "2330_2024Q1" := Some sample_tables]}.

Definition cached_world : world :=
  World {[utf8 "2330_2024Q1.json" := Dumped (Some sample_tables)]}
        [DriverGet url_2330].

Definition url_2317 : pystr :=
  utf8 "https://mopsov.twse.com.tw/server-java/t164sb01?step=3&CO_ID=2317&SYEAR=2024&SSEASON=1&REPORT_ID=C".

(** ** The pipeline: notions and concrete collaborators *)

(** The world after one more model call. *)
Definition asked (w : world) (prompt : pystr) : world :=
  World (files w) (trace w ++ [ChatCreate prompt]).

(** The prompts sent to the model among [evs], in order. *)
Definition chats (evs : list event) : list pystr :=
  omap (λ ev, match ev with ChatCreate p => Some p | _ => None end) evs.

(** The ["raw"] entry of a parse result. *)
Definition raw_of (parsed : json) : option json :=
  match parsed with
  | JObj fields => dict_lookup (utf8 "raw") fields
  | _ => None
  end.

(** The keyword the pipeline searches for, from the fields of the intent. *)
Definition keyword_of (E : env) (fields : list (pystr * json)) : pystr :=
  strip (py_str E (default (JStr []) (dict_lookup (utf8 "company") fields))
         ++ py_str E (default (JStr []) (dict_lookup (utf8 "topic") fields))).

(** The "error" entry [mo.parse_question] gives when [json.loads] raises
    [e], and the entries that follow it: its first handler takes a
    [JSONDecodeError] and adds "raw", its second takes the rest. *)
Definition mo_parse_error (e : exn) : pystr :=
  match e with
  | JSONDecodeError msg => utf8 "解析失敗：無法解析 JSON: " ++ msg
  | _ => utf8 "解析失敗：" ++ str_exn e
  end.

Definition mo_parse_raw (e : exn) (result : pystr) : list (pystr * json) :=
  match e with
  | JSONDecodeError _ => [(utf8 "raw", JStr result)]
  | _ => []
  end.

(** The specification's reading of the parse failure: the error result
    carries the reply of the model as it came. *)
Definition carries_reply_unmodified (E : env) (question : pystr) (w : world)
  : Prop :=
  ∀ reply,
    chat_create E (now w) (parse_prompt question) = inr reply →
    (∃ e, json_loads E reply = inl e) →
    (∃ parsed w', mc.parse_question E question w = (Returned parsed, w')
                  ∧ raw_of parsed = Some (JStr reply))
    ∧ (∃ parsed w', mo.parse_question E question w = (Returned parsed, w')
                    ∧ raw_of parsed = Some (JStr reply)).

(** A run returns the string [s]. *)
Definition returns_text (run : outcome summary_result * world) (s : pystr)
  : Prop :=
  run.1 = Returned (Text s).

Definition quoted (s : pystr) : pystr := [34%N] ++ s ++ [34%N].

(** A JSON object of three string fields, as text and as document. *)
Definition intent_text (company stock_id topic : pystr) : pystr :=
  utf8 "{" ++ quoted (utf8 "company") ++ utf8 ": " ++ quoted company ++ utf8 ", "
  ++ quoted (utf8 "stock_id") ++ utf8 ": " ++ quoted stock_id ++ utf8 ", "
  ++ quoted (utf8 "topic") ++ utf8 ": " ++ quoted topic ++ utf8 "}".

Definition intent_doc (company stock_id topic : pystr) : json :=
  JObj [(utf8 "company", JStr company); (utf8 "stock_id", JStr stock_id);
        (utf8 "topic", JStr topic)].

(** [json.loads] on the one document [text], which stands for [doc]; any
    other text used in the examples is no JSON. *)
Definition loads_only (text : pystr) (doc : json) (s : pystr) : exn + json :=
  if pystr_eqb s text then inr doc
  else inl (JSONDecodeError (utf8 "Expecting value: line 1 column 1 (char 0)")).

Definition advisory : pystr := utf8 "⚠️ 找不到符合條件的新聞。請換個問題試試。".

Definition question_1 : pystr := utf8 "鴻海配息會衝擊股價嗎？".

(** The model answers the parse prompt with prose, padded with white space. *)
Definition prose_reply : pystr := utf8 " 抱歉，我無法回答這個問題。
".

Definition prose_env : env :=
  Env (λ _ _, inr prose_reply)
      (λ _ _, inr sample_boxes)
      (λ _ _, inr (Some (utf8 "鴻海今日宣布配息。")))
      (λ _ _, inr sample_page)
      (λ _, inl (JSONDecodeError (utf8 "Expecting value: line 1 column 1 (char 0)")))
      (λ _, []) (λ _, []) search_date
      (λ _ _, None) (λ _, None).

(** The model answers the parse prompt with 100000 opening brackets, on
    which [json.loads] runs out of stack. *)
Definition deep_reply : pystr := replicate (Z.to_nat 100000) 91%N.

Definition deep_error : exn :=
  Error (utf8 "maximum recursion depth exceeded while decoding a JSON array from a unicode string").

Definition deep_reply_env : env :=
  Env (λ _ _, inr deep_reply)
      (λ _ _, inr sample_boxes)
      (λ _ _, inr (Some (utf8 "鴻海今日宣布配息。")))
      (λ _ _, inr sample_page)
      (λ _, inl deep_error)
      (λ _, []) (λ _, []) search_date
      (λ _ _, None) (λ _, None).

(** The model parses the question (request 0) and is unreachable afterwards;
    the news site answers as in [news_env]. *)
Definition model_down_env : env :=
  Env (λ t _, if decide (t = 0%nat)
              then inr (intent_text (utf8 "鴻海") (utf8 "2317") (utf8 "配息"))
              else inl (Error (utf8 "Connection error.")))
      (λ _ _, inr sample_boxes)
      (λ t _, if decide (t = 2%nat) then inl (Error (utf8 "timed out"))
              else inr (Some (utf8 "鴻海今日宣布配息。")))
      (λ _ _, inr sample_page)
      (loads_only (intent_text (utf8 "鴻海") (utf8 "2317") (utf8 "配息"))
                  (intent_doc (utf8 "鴻海") (utf8 "2317") (utf8 "配息")))
      (λ _, []) (λ _, []) search_date
      (λ _ _, None) (λ _, None).

(** The articles [model_down_env] yields for the keyword 鴻海配息. *)
Definition model_down_articles : list article :=
  [Article (utf8 "鴻海配息創新高") (utf8 "https://www.ettoday.net/news/1")
           (utf8 "2025-03-14") (utf8 "(抓取失敗: timed out)") (utf8 "鴻海配息");
   Article (utf8 "鴻海法說會") (utf8 "https://www.ettoday.net/news/2")
           [] (utf8 "鴻海今日宣布配息。") (utf8 "鴻海配息")].

(** The intent has the stock id [stock_id]; every search page is empty, no
    filing page shows a table, and the model answers the final prompt. *)
Definition intent_env (company stock_id topic : pystr) : env :=
  Env (λ t _, if decide (t = 0%nat) then inr (intent_text company stock_id topic)
              else inr (utf8 "分析如下。"))
      (λ _ _, inr [])
      (λ _ _, inl (Error (utf8 "timed out")))
      (λ _ _, inr (WaitFails (Error (utf8 "Message: "))))
      (loads_only (intent_text company stock_id topic)
                  (intent_doc company stock_id topic))
      (λ _, []) (λ _, utf8 "{}") (λ _, None)
      (λ _ _, None) (λ _, None).

(** Three articles, the second with a body of 3001 characters. *)
Definition three_articles : list article :=
  [Article (utf8 "甲") (utf8 "https://www.ettoday.net/news/1") (utf8 "2025-03-14")
           (utf8 "內文一") (utf8 "鴻海");
   Article (utf8 "乙") (utf8 "https://www.ettoday.net/news/2") (utf8 "2025-03-15")
           (replicate 3001 65%N) (utf8 "鴻海");
   Article (utf8 "丙") (utf8 "https://www.ettoday.net/news/3") (utf8 "2025-03-16")
           (utf8 "內文三") (utf8 "鴻海")].

(** ** The corpus as the specification describes it *)

(** A numbered article block. *)
Record block := Block {
  number : Z;
  b_title : pystr;
  b_link : pystr;
  body : pystr
}.

Definition render_block (b : block) : pystr :=
  utf8 "【第 " ++ str_int (number b) ++ utf8 " 篇】" ++ nl
  ++ utf8 "標題：" ++ b_title b ++ nl
  ++ utf8 "連結：" ++ b_link b ++ nl
  ++ utf8 "內文：" ++ nl ++ body b ++ nl.

(** The first [maxArticles] articles, numbered from 1 in their order, each
    body cut to 3000 characters. *)
Definition spec_assemble (articles : list article) (maxArticles : nat)
  : list block :=
  imap (λ i a, Block (Z.of_nat i + 1) (title a) (link a) (take 3000 (content a)))
       (take maxArticles articles).

(** ** What a run may do to the world *)

(** World [w'] comes after [w]: the requests issued in between all satisfy
    [P], and the cache files are related by [F]. *)
Definition extends (P : event → Prop)
    (F : gmap (list N) file_content → gmap (list N) file_content → Prop)
    (w w' : world) : Prop :=
  F (files w) (files w') ∧ ∃ evs, trace w' = trace w ++ evs ∧ Forall P evs.

(** Whatever [m] gives, returned or raised, it leaves a world related by
    [Rel] to the one it started in. *)
Definition preserves (Rel : world → world → Prop) {A} (m : M A) : Prop :=
  ∀ w, Rel w (m w).2.

Definition is_filing_request (ev : event) : Prop :=
  match ev with DriverGet _ => True | _ => False end.

Definition no_filing_request (ev : event) : Prop :=
  match ev with DriverGet _ => False | _ => True end.

Definition any_request (ev : event) : Prop := True.

(** ** Decimal numerals *)

(** A character of a decimal numeral: a digit or the minus sign. *)
Definition numeral_char (c : N) : bool :=
  ((c =? 45) || (48 <=? c) && (c <=? 57))%N.

(** ** The crawl, seen in the trace *)

(** The address of search page [page] for [keyword]. *)
Definition search_url (keyword : pystr) (page : Z) : pystr :=
  utf8 "https://www.ettoday.net/news_search/doSearch.php?keywords="
  ++ keyword ++ utf8 "&page=" ++ str_int page.

(** The addresses of the search pages requested among [evs], in order. *)
Definition search_urls (evs : list event) : list pystr :=
  omap (λ ev, match ev with SearchGet u => Some u | _ => None end) evs.

Definition is_article_request (ev : event) : Prop :=
  match ev with ArticleGet _ => True | _ => False end.

(** No white space at either end. *)
Definition stripped (s : pystr) : Prop :=
  (∀ c, head s = Some c → isspace c = false)
  ∧ (∀ c, last s = Some c → isspace c = false).

(** ** The candidates of a crawl, as the specification describes them *)






(** ** Replies that are JSON but no object *)

Definition is_object (v : json) : bool :=
  match v with JObj _ => true | _ => false end.

Definition type_or_attribute_error (e : exn) : Prop :=
  match e with TypeError _ | AttributeError _ => True | _ => False end.

(** The model answers the parse prompt with an empty JSON array. *)
Definition array_reply_env : env :=
  Env (λ _ _, inr (utf8 "[]"))
      (λ _ _, inr sample_boxes)
      (λ _ _, inr (Some (utf8 "鴻海今日宣布配息。")))
      (λ _ _, inr sample_page)
      (loads_only (utf8 "[]") (JArr []))
      (λ _, []) (λ _, []) search_date
      (λ _ _, None) (λ _, None).

(** The world after the crawl of [model_down_env] for [question_1]. *)
Definition model_down_crawled : world :=
  World ∅
    [ChatCreate (parse_prompt question_1);
     SearchGet (utf8 "https://www.ettoday.net/news_search/doSearch.php?keywords=鴻海配息&page=1");
     ArticleGet (utf8 "https://www.ettoday.net/news/1");
     ArticleGet (utf8 "https://www.ettoday.net/news/2")].

(** * Properties *)

(** ** Loops *)

Lemma for_each_post {A S} (I : S → world → Prop) (R : exn → world → Prop)
    (l : list A) (body : A → S → M S) :
  (∀ x s w, x ∈ l → I s w → run_post (body x s w) I R) →
  ∀ s w, I s w → run_post (for_each l body s w) I R.
Proof.
  induction l as [|x l IH]; intros Hbody s w Hs; simpl.
  - exact Hs.
  - unfold bind. pose proof (Hbody x s w (list_elem_of_here _ _) Hs) as Hx.
    destruct (body x s w) as [[s'|e] w']; simpl in *; [|exact Hx].
    apply IH; [|exact Hx].
    intros y s0 w0 Hy. apply Hbody. by apply list_elem_of_further.
Qed.

Lemma for_each_app {A S} (l1 l2 : list A) (body : A → S → M S) s w :
  for_each (l1 ++ l2) body s w
  = (s' <- for_each l1 body s ;; for_each l2 body s') w.
Proof.
  revert s w. induction l1 as [|x l1 IH]; intros s w; simpl.
  - unfold bind, ret. done.
  - unfold bind in *. destruct (body x s w) as [[s'|e] w']; [|done].
    apply IH.
Qed.

Lemma article_requests_app t0 evs1 evs2 :
  article_requests t0 (evs1 ++ evs2)
  = article_requests t0 evs1 ++ article_requests (t0 + length evs1) evs2.
Proof.
  revert t0. induction evs1 as [|ev evs1 IH]; intros t0; simpl.
  - by rewrite Nat.add_0_r.
  - rewrite IH, Nat.add_succ_r. by destruct ev.
Qed.


Lemma crawl_inv_start E kw w0 : crawl_inv E kw w0 [] w0.
Proof.
  split; [done|]. exists []. rewrite app_nil_r. repeat split; constructor.
Qed.

Lemma crawl_box_post E kw w0 b arts w :
  crawl_inv E kw w0 arts w →
  run_post (news_summary.crawl_box E kw b arts w)
    (crawl_inv E kw w0) (λ e _, e = KeyError (utf8 "href")).
Proof.
  intros (Hf & evs & Ht & Hev & Hart).
  unfold news_summary.crawl_box.
  destruct (title_tag b) as [a|]; [|by repeat esplit].
  destruct (date_tag b) as [d|]; [|by repeat esplit].
  unfold bind, news_summary.getitem_href.
  destruct (a_href a) as [l|]; simpl; [|done].
  unfold try_except, bind, request.
  assert (∀ c, c = content_of (article_get E (now w) l) →
    crawl_inv E kw w0
      (arts ++ [Article (strip (a_text a)) l
                  (default [] (re_search_date E d)) c kw])
      (World (files w) (trace w ++ [ArticleGet l]))) as Hgoal.
  { intros c ->. split; [done|]. exists (evs ++ [ArticleGet l]). simpl.
    rewrite Ht, <- app_assoc. split; [done|]. split.
    - apply Forall_app. split; [done|]. by repeat constructor.
    - rewrite article_requests_app. apply Forall2_app; [done|]. simpl.
      repeat constructor; simpl; try done.
      unfold now. by rewrite Ht, length_app. }
  destruct (article_get E (now w) l) as [e|main] eqn:Hget; simpl;
    apply Hgoal; by rewrite ?Hget.
Qed.

Lemma crawl_page_post E kw w0 page arts w :
  crawl_inv E kw w0 arts w →
  run_post (news_summary.crawl_page E kw page arts w)
    (crawl_inv E kw w0) (λ e _, e = KeyError (utf8 "href")).
Proof.
  intros (Hf & evs & Ht & Hev & Hart).
  unfold news_summary.crawl_page.
  set (url := _ ++ _ ++ _ ++ str_int page).
  assert (crawl_inv E kw w0 arts (World (files w) (trace w ++ [SearchGet url])))
    as Hnext.
  { split; [done|]. exists (evs ++ [SearchGet url]). simpl.
    rewrite Ht, <- app_assoc. split; [done|]. split.
    - apply Forall_app. split; [done|]. by repeat constructor.
    - rewrite article_requests_app. simpl. by rewrite app_nil_r. }
  unfold bind at 1. unfold try_except, bind, request.
  destruct (search_get E (now w) url) as [e|boxes]; simpl; [done|].
  apply for_each_post; [|done].
  intros b s w1 _ Hs. by apply crawl_box_post.
Qed.

Lemma crawl_post E kw pages w :
  run_post (news_summary.crawl_etnews_articles E kw pages w)
    (crawl_inv E kw w) (λ e _, e = KeyError (utf8 "href")).
Proof.
  unfold news_summary.crawl_etnews_articles.
  apply for_each_post; [|apply crawl_inv_start].
  intros page s w1 _ Hs. by apply crawl_page_post.
Qed.

(** X21. The crawl returns whenever every result anchor of the search pages
    has an [href], whatever the search and article requests answer. *)
Lemma crawl_returns E kw pages w :
  (∀ t url boxes b a,
     search_get E t url = inr boxes → b ∈ boxes → title_tag b = Some a →
     is_Some (a_href a)) →
  ∃ arts w', news_summary.crawl_etnews_articles E kw pages w = (Returned arts, w').
Proof.
  intros Hhref.
  assert (run_post (news_summary.crawl_etnews_articles E kw pages w)
            (λ _ _, True) (λ _ _, False)) as Hpost.
  { unfold news_summary.crawl_etnews_articles.
    apply for_each_post; [|done]. intros page arts w1 _ _.
    unfold news_summary.crawl_page. cbv zeta.
    unfold bind at 1. unfold try_except, bind, request.
    destruct (search_get E (now w1) _) as [e|boxes] eqn:Hget; simpl; [done|].
    apply for_each_post; [|done]. intros b arts2 w2 Hb _.
    unfold news_summary.crawl_box.
    destruct (title_tag b) as [a|] eqn:Ha; [|done].
    destruct (date_tag b) as [d|]; [|done].
    destruct (Hhref _ _ _ _ _ Hget Hb Ha) as [l Hl].
    unfold bind, news_summary.getitem_href. rewrite Hl. simpl.
    unfold try_except, bind, request.
    by destruct (article_get E _ l). }
  destruct (news_summary.crawl_etnews_articles E kw pages w) as [[arts|e] w'];
    [by eexists _, _|done].
Qed.






(** [mc.py] carries a copy of the crawler. *)
Lemma mc_crawl_same E kw pages w :
  mc._crawl_ettoday E kw pages w
  = news_summary.crawl_etnews_articles E kw pages w.
Proof. reflexivity. Qed.

(** ** NewsFetcher *)

(** C9. With [pages <= 0] the crawler returns the empty list and leaves the
    world as it was: no search page and no article is requested. This holds
    for [crawl_etnews_articles] and for the copy in [mc.py]. *)
Theorem crawl_without_pages E kw pages w :
  pages ≤ 0 →
  news_summary.crawl_etnews_articles E kw pages w = (Returned [], w)
  ∧ mc._crawl_ettoday E kw pages w = (Returned [], w).
Proof.
  intros Hle.
  assert (news_summary.crawl_etnews_articles E kw pages w = (Returned [], w))
    as Hrun.
  { unfold news_summary.crawl_etnews_articles, range1.
    by rewrite seqZ_nil. }
  split; [exact Hrun | by rewrite mc_crawl_same].
Qed.

Lemma crawl_without_pages_witness :
  -3 ≤ 0
  ∧ news_summary.crawl_etnews_articles news_env (utf8 "鴻海配息") (-3) (World ∅ [])
    = (Returned [], World ∅ [])
  ∧ mc._crawl_ettoday news_env (utf8 "鴻海配息") (-3) (World ∅ [])
    = (Returned [], World ∅ []).
Proof. split; [lia | apply crawl_without_pages; lia]. Defined.

Lemma sample_crawl :
  news_summary.crawl_etnews_articles news_env (utf8 "鴻海配息") 1 (World ∅ [])
  = (Returned sample_articles, World ∅ sample_trace).
Proof. vm_compute. reflexivity. Qed.

(** C10. Every article in the list the crawler returns carries the keyword
    the call was made with ([crawl_etnews_articles] and the copy in
    [mc.py]). *)
Theorem crawl_keeps_keyword E kw pages w arts w' :
  news_summary.crawl_etnews_articles E kw pages w = (Returned arts, w')
  ∨ mc._crawl_ettoday E kw pages w = (Returned arts, w') →
  ∀ a, a ∈ arts → keyword a = kw.
Proof.
  intros Hrun a Ha.
  assert (news_summary.crawl_etnews_articles E kw pages w = (Returned arts, w'))
    as Hrun' by (destruct Hrun as [H|H]; exact H).
  pose proof (crawl_post E kw pages w) as Hpost. rewrite Hrun' in Hpost.
  destruct Hpost as (_ & evs & _ & _ & Hbuilt).
  apply list_elem_of_lookup in Ha as [i Hi].
  destruct (Forall2_lookup_l _ _ _ _ _ Hbuilt Hi) as (req & _ & _ & Hkw & _).
  exact Hkw.
Qed.

Lemma crawl_keeps_keyword_witness :
  news_summary.crawl_etnews_articles news_env (utf8 "鴻海配息") 1 (World ∅ [])
  = (Returned sample_articles, World ∅ sample_trace)
  ∧ Forall (λ a, keyword a = utf8 "鴻海配息") sample_articles.
Proof.
  assert (news_summary.crawl_etnews_articles news_env (utf8 "鴻海配息") 1 (World ∅ [])
          = (Returned sample_articles, World ∅ sample_trace)) as Hrun
    by (vm_compute; reflexivity).
  split; [exact Hrun|].
  apply Forall_forall.
  exact (crawl_keeps_keyword news_env (utf8 "鴻海配息") 1 (World ∅ [])
           sample_articles (World ∅ sample_trace) (or_introl Hrun)).
Defined.



(** ** FilingFetcher *)

Lemma for_each_ext {A S} (l : list A) (body1 body2 : A → S → M S) :
  (∀ x s w, body1 x s w = body2 x s w) →
  ∀ s w, for_each l body1 s w = for_each l body2 s w.
Proof.
  intros Hext. induction l as [|x l IH]; intros s w; simpl; [done|].
  unfold bind. rewrite Hext. destruct (body2 x s w) as [[s'|e] w']; [|done].
  apply IH.
Qed.

Lemma for_each_singleton {A S} (x : A) (body : A → S → M S) s w :
  for_each [x] body s w = body x s w.
Proof. simpl. unfold bind, ret. by destruct (body x s w) as [[s'|e] w']. Qed.

Lemma for_each_bind {A B S} (l : list A) (f : A → list B)
    (body : B → S → M S) s w :
  for_each (l ≫= f) body s w = for_each l (λ x, for_each (f x) body) s w.
Proof.
  revert s w. induction l as [|x l IH]; intros s w; [done|].
  rewrite bind_cons, for_each_app. simpl. unfold bind.
  destruct (for_each (f x) body s w) as [[s'|e] w']; [|done].
  apply IH.
Qed.

Lemma fetch_flat E stock_ids years seasons w :
  mops_report.fetch_mops_report E stock_ids years seasons w
  = for_each (combos stock_ids years seasons) (fetch_combo E) ∅ w.
Proof.
  unfold mops_report.fetch_mops_report, combos.
  rewrite for_each_bind. apply for_each_ext. intros s r1 w1.
  rewrite for_each_bind. apply for_each_ext. intros y r2 w2.
  rewrite for_each_bind. apply for_each_ext. intros q r3 w3.
  by rewrite for_each_singleton.
Qed.

(** The JSON reading of a record: all keys are strings, no two alike, and
    reading it again changes nothing. *)
Lemma dict_set_keys k v d :
  (dict_set k v d).*1
  = if decide (SStr k ∈ d.*1) then d.*1 else d.*1 ++ [SStr k].
Proof.
  induction d as [|[k' v'] d IH]; [done|].
  cbn [dict_set]. rewrite fmap_cons. cbn [fst].
  destruct (decide (k' = SStr k)) as [->|Hne]; rewrite fmap_cons; cbn [fst].
  - rewrite decide_True; [done|]. by left.
  - rewrite IH. destruct (decide (SStr k ∈ d.*1)) as [Hin|Hnin].
    + rewrite decide_True; [done|]. by right.
    + rewrite decide_False; [done|].
      intros [?|?]%elem_of_cons; [congruence|done].
Qed.

Lemma dict_set_fresh k v d :
  SStr k ∉ d.*1 → dict_set k v d = d ++ [(SStr k, v)].
Proof.
  induction d as [|[k' v'] d IH]; simpl; intros Hnin; [done|].
  apply not_elem_of_cons in Hnin as [Hne Hnin].
  rewrite decide_False by congruence. f_equal. by apply IH.
Qed.

Lemma dict_set_str_keyed k v d : str_keyed d → str_keyed (dict_set k v d).
Proof.
  intros [Hnd Hstr]. unfold str_keyed. rewrite dict_set_keys.
  case_decide as Hin; [done|]. split.
  - apply NoDup_app. split; [done|]. split; [|apply NoDup_singleton].
    intros x Hx ->%list_elem_of_singleton. done.
  - apply Forall_app. split; [done|]. repeat constructor. by eexists.
Qed.

Lemma reload_row_str_keyed r : str_keyed (reload_row r).
Proof.
  unfold reload_row.
  assert (str_keyed []) as Hnil by (split; constructor).
  revert Hnil. generalize (@nil (scalar * scalar)).
  induction r as [|kv r IH]; intros d Hd; simpl; [done|].
  apply IH. by apply dict_set_str_keyed.
Qed.

Lemma reload_row_fixed r : str_keyed r → reload_row r = r.
Proof.
  unfold reload_row. change r with ([] ++ r) at 1 3.
  generalize (@nil (scalar * scalar)).
  induction r as [|[k v] r IH]; intros d [Hnd Hstr]; simpl.
  - by rewrite app_nil_r.
  - assert (∃ s, k = SStr s) as [s ->].
    { rewrite fmap_app, fmap_cons in Hstr.
      apply Forall_app in Hstr as [_ Hstr].
      by apply Forall_cons in Hstr as [? _]. }
    assert (SStr s ∉ d.*1) as Hfresh.
    { rewrite fmap_app, fmap_cons in Hnd.
      apply NoDup_app in Hnd as (_ & Hsep & _).
      intros Hin. apply (Hsep _ Hin). by left. }
    cbn [json_key]. rewrite (dict_set_fresh _ _ _ Hfresh).
    rewrite (cons_middle _ d r), app_assoc. apply IH.
    rewrite <- app_assoc. by split.
Qed.

Lemma reload_row_idemp r : reload_row (reload_row r) = reload_row r.
Proof. apply reload_row_fixed, reload_row_str_keyed. Qed.

Lemma json_reload_idemp v : json_reload (json_reload v) = json_reload v.
Proof.
  destruct v as [tabs|]; simpl; [|done]. f_equal.
  rewrite <- list_fmap_compose. apply list_fmap_ext. intros _ [i p d] _.
  unfold reload_table. simpl. f_equal.
  rewrite <- list_fmap_compose. apply list_fmap_ext. intros _ r _. simpl.
  apply reload_row_idemp.
Qed.

(** Tables whose records have distinct strings for keys are read back as
    they were written. *)
Lemma json_reload_str_keyed tabs :
  Forall (λ t, Forall str_keyed (data t)) tabs →
  json_reload (Some tabs) = Some tabs.
Proof.
  intros Htabs. simpl. f_equal.
  induction Htabs as [|[i p d] tabs Ht _ IH]; [done|].
  rewrite fmap_cons, IH. f_equal. unfold reload_table. simpl in *. f_equal.
  induction Ht as [|r d Hr _ IHd]; [done|].
  by rewrite fmap_cons, IHd, reload_row_fixed.
Qed.

(** One combination, case by case. *)
Lemma fetch_one_run E s y q r w :
  mops_report.fetch_one E s y q r w
  = let key := mops_report.composite_key s y q in
    let filename := mops_report.filename_of key in
    let url := mops_report.report_url s y q in
    let w' := World (files w) (trace w ++ [DriverGet url]) in
    match files w !! filename with
    | Some (Dumped v) => (Returned (<[key := json_reload v]> r), w)
    | Some (Unreadable e) => (Raised e, w)
    | None =>
        match driver_get E (now w) url with
        | inl e => (Raised e, w')
        | inr (WaitFails e) => (Returned (<[key := None]> r), w')
        | inr (Loaded ts) =>
            let all_tables := mops_report.parse_tables ts in
            match open_write E (now w') filename with
            | Some e => (Returned (<[key := None]> r), w')
            | None =>
                match dump_error E all_tables with
                | None =>
                    (Returned (<[key := Some all_tables]> r),
                     World (<[filename := Dumped (Some all_tables)]> (files w))
                           (trace w'))
                | Some (e, e_read) =>
                    (Returned (<[key := None]> r),
                     World (<[filename := Unreadable e_read]> (files w))
                           (trace w'))
                end
            end
        end
    end.
Proof.
  unfold mops_report.fetch_one, bind, mops_report.read_cache. simpl.
  destruct (files w !! _) as [[v|e]|]; [done..|].
  unfold request, try_except, bind, mops_report.write_cache. simpl.
  destruct (driver_get E (now w) _) as [e|[e|ts]]; [done..|]. simpl.
  destruct (open_write E _ _) as [e|]; [done|].
  by destruct (dump_error E _) as [[e e_read]|].
Qed.

Lemma filename_of_inj k1 k2 :
  mops_report.filename_of k1 = mops_report.filename_of k2 → k1 = k2.
Proof. unfold mops_report.filename_of. apply app_inv_tail. Qed.

Lemma cache_inv_insert (r : results) (w w' : world) (k : pystr) (v : filing) :
  cache_inv r w →
  (∀ k', k' ≠ k →
     files w' !! mops_report.filename_of k'
     = files w !! mops_report.filename_of k') →
  match files w' !! mops_report.filename_of k with
  | Some (Dumped c) => json_reload c = json_reload v
  | _ => v = None
  end →
  cache_inv (<[k := v]> r) w'.
Proof.
  intros Hinv Hframe Hk k' v' Hk'.
  destruct (decide (k' = k)) as [->|Hne].
  - rewrite lookup_insert_eq in Hk'. by simplify_eq.
  - rewrite lookup_insert_ne in Hk' by done. rewrite Hframe by done.
    by apply Hinv.
Qed.

Lemma fetch_combo_returned E c r w r1 w1 :
  fetch_combo E c r w = (Returned r1, w1) →
  cache_inv r w →
  cache_inv r1 w1 ∧ ∃ v, r1 = <[key_of c := v]> r.
Proof.
  unfold fetch_combo. rewrite fetch_one_run. fold (key_of c). cbv zeta.
  intros Hrun Hinv.
  assert (∀ c0 k', k' ≠ key_of c →
            <[mops_report.filename_of (key_of c) := c0]> (files w)
              !! mops_report.filename_of k'
            = files w !! mops_report.filename_of k') as Hframe.
  { intros c0 k' Hne. apply lookup_insert_ne. by intros ?%filename_of_inj. }
  destruct (files w !! mops_report.filename_of (key_of c)) as [[v|e]|] eqn:Hfile.
  - simplify_eq. split; [|by eexists].
    apply (cache_inv_insert r w1); [done..|].
    by rewrite Hfile, json_reload_idemp.
  - done.
  - destruct (driver_get E (now w) _) as [e|[e|ts]]; [done| |].
    { simplify_eq. split; [|by eexists].
      apply (cache_inv_insert r w); [done..|]. simpl. by rewrite Hfile. }
    destruct (open_write E _ _) as [e|].
    { simplify_eq. split; [|by eexists].
      apply (cache_inv_insert r w); [done..|]. simpl. by rewrite Hfile. }
    destruct (dump_error E _) as [[e e_read]|]; simplify_eq.
    + split; [|by eexists].
      apply (cache_inv_insert r w); [done|apply Hframe|].
      simpl. by rewrite lookup_insert_eq.
    + split; [|by eexists].
      apply (cache_inv_insert r w); [done|apply Hframe|].
      simpl. by rewrite lookup_insert_eq.
Qed.

(** The loop, when it returns: the invariant holds and the result has an
    entry for every key visited. *)
Lemma fetch_loop_returned E cs : ∀ r w r' w',
  for_each cs (fetch_combo E) r w = (Returned r', w') →
  cache_inv r w →
  cache_inv r' w'
  ∧ ∀ k, is_Some (r' !! k) ↔ is_Some (r !! k) ∨ k ∈ key_of <$> cs.
Proof.
  induction cs as [|c cs IH]; intros r w r' w' Hrun Hinv; simpl in *.
  - unfold ret in Hrun. simplify_eq. split; [done|].
    intros k. rewrite elem_of_nil. tauto.
  - unfold bind in Hrun.
    destruct (fetch_combo E c r w) as [[r1|e] w1] eqn:Hc; [|done].
    destruct (fetch_combo_returned _ _ _ _ _ _ Hc Hinv) as (Hinv1 & v & ->).
    destruct (IH _ _ _ _ Hrun Hinv1) as (Hinv' & Hdom).
    split; [done|]. intros k. rewrite Hdom, elem_of_cons.
    destruct (decide (k = key_of c)) as [->|Hne].
    + rewrite lookup_insert_eq. split; [intros _; right; by left|by eauto].
    + rewrite lookup_insert_ne by done. tauto.
Qed.

(** The loop over keys that all have a cache file which can be read: no
    request, no write; the result takes every value from the cache. *)
Lemma fetch_loop_cached E cs : ∀ r w,
  (∀ c, c ∈ cs →
     ∃ v, files w !! mops_report.filename_of (key_of c) = Some (Dumped v)) →
  for_each cs (fetch_combo E) r w
  = (Returned (foldl (λ r c, <[key_of c := cached_value w (key_of c)]> r) r cs),
     w).
Proof.
  induction cs as [|c cs IH]; intros r w Hfiles; simpl; [done|].
  unfold bind. unfold fetch_combo at 1. rewrite fetch_one_run. cbv zeta.
  change (mops_report.composite_key c.1.1 c.1.2 c.2) with (key_of c).
  destruct (Hfiles c) as [v Hv]; [by left|].
  rewrite Hv.
  replace (cached_value w (key_of c)) with (json_reload v)
    by (unfold cached_value; by rewrite Hv).
  apply IH. intros c' Hc'. apply Hfiles. by right.
Qed.

Lemma lookup_foldl_cached (w : world) cs : ∀ (r : results) k,
  foldl (λ r c, <[key_of c := cached_value w (key_of c)]> r) r cs !! k
  = if decide (k ∈ key_of <$> cs) then Some (cached_value w k) else r !! k.
Proof.
  induction cs as [|c cs IH]; intros r k; [done|].
  rewrite fmap_cons. cbn [foldl]. rewrite IH.
  destruct (decide (k ∈ key_of <$> cs)) as [Hin|Hnin];
    destruct (decide (k ∈ key_of c :: (key_of <$> cs))) as [Hin'|Hnin'];
    try done.
  - exfalso. apply Hnin'. by right.
  - apply elem_of_cons in Hin' as [->|?]; [|done].
    by rewrite lookup_insert_eq.
  - apply lookup_insert_ne. intros <-. apply Hnin'. by left.
Qed.

Lemma cache_inv_empty w : cache_inv ∅ w.
Proof. intros k v Hk. by rewrite lookup_empty in Hk. Qed.

(** A wait that fails (the deadline, no table) gives [None] for that key
    and lets the loop go on; nothing is written to the cache. *)
Lemma wait_failure_gives_none E s y q r w e :
  files w !! mops_report.filename_of (mops_report.composite_key s y q) = None →
  driver_get E (now w) (mops_report.report_url s y q) = inr (WaitFails e) →
  mops_report.fetch_one E s y q r w
  = (Returned (<[mops_report.composite_key s y q := None]> r),
     World (files w) (trace w ++ [DriverGet (mops_report.report_url s y q)])).
Proof. intros Hfile Hget. rewrite fetch_one_run. cbv zeta. by rewrite Hfile, Hget. Qed.

(** A cache file that cannot be read stops the whole call: it is read
    before the [try]. *)
Lemma unreadable_cache_file_raises E s y q r w e :
  files w !! mops_report.filename_of (mops_report.composite_key s y q)
  = Some (Unreadable e) →
  mops_report.fetch_one E s y q r w = (Raised e, w).
Proof. intros Hfile. rewrite fetch_one_run. cbv zeta. by rewrite Hfile. Qed.

Lemma fetch_loop_total E cs :
  (∀ t url e, driver_get E t url ≠ inl e) →
  (∀ tabs, dump_error E tabs = None) →
  ∀ r w,
    (∀ c e, c ∈ cs →
       files w !! mops_report.filename_of (key_of c) ≠ Some (Unreadable e)) →
    ∃ r' w', for_each cs (fetch_combo E) r w = (Returned r', w').
Proof.
  intros Hget Hdump.
  induction cs as [|c cs IH]; intros r w Hfiles; simpl; [by eexists _, _|].
  unfold bind. unfold fetch_combo at 1. rewrite fetch_one_run. cbv zeta.
  change (mops_report.composite_key c.1.1 c.1.2 c.2) with (key_of c).
  assert (∀ c' e, c' ∈ cs →
            files w !! mops_report.filename_of (key_of c') ≠ Some (Unreadable e))
    as Hrest by (intros c' e Hc'; apply Hfiles; by right).
  destruct (files w !! mops_report.filename_of (key_of c)) as [[v|e]|] eqn:Hfile.
  - by apply IH.
  - exfalso. by apply (Hfiles c e); [left|].
  - destruct (driver_get E (now w) _) as [e|[e|ts]] eqn:Hd.
    + by apply Hget in Hd.
    + by apply IH.
    + destruct (open_write E _ _) as [e|]; [by apply IH|].
      rewrite Hdump. apply IH. simpl. intros c' e Hc'.
      destruct (decide (mops_report.filename_of (key_of c')
                        = mops_report.filename_of (key_of c))) as [->|Hne].
      * by rewrite lookup_insert_eq.
      * rewrite lookup_insert_ne by done. by apply Hrest.
Qed.

(** X22. As long as starting the browser and loading the page do not raise,
    [json.dump] does not stop half way and no cache file of a requested key
    is unreadable, the call returns a mapping whose keys are exactly the
    composite keys of the cross product. *)
Lemma fetch_complete_without_driver_error E stock_ids years seasons w :
  (∀ t url e, driver_get E t url ≠ inl e) →
  (∀ tabs, dump_error E tabs = None) →
  (∀ c e, c ∈ combos stock_ids years seasons →
     files w !! mops_report.filename_of (key_of c) ≠ Some (Unreadable e)) →
  ∃ r w1,
    mops_report.fetch_mops_report E stock_ids years seasons w = (Returned r, w1)
    ∧ ∀ k, is_Some (r !! k) ↔ k ∈ key_of <$> combos stock_ids years seasons.
Proof.
  intros Hget Hdump Hfiles.
  destruct (fetch_loop_total E (combos stock_ids years seasons) Hget Hdump ∅ w
              Hfiles) as (r & w1 & Hrun).
  exists r, w1. rewrite fetch_flat. split; [done|].
  destruct (fetch_loop_returned _ _ _ _ _ _ Hrun (cache_inv_empty w)) as [_ Hdom].
  intros k. rewrite Hdom, lookup_empty. split; [|by right].
  by intros [[? ?]|?].
Qed.

(** C1. Two companies are requested; the page of the first loads, and for
    the second [driver.get] raises, which happens before the [try]. The
    exception leaves [fetch_mops_report]: no mapping is returned, not even
    the entry of the first company, whose tables are in the cache by then. *)
Theorem fetch_aborts_on_driver_error :
  mops_report.fetch_mops_report offline_after_first_env
    [utf8 "2330"; utf8 "2317"] [2024] [1] (World ∅ [])
  = (Raised (Error (utf8 "unknown error: net::ERR_INTERNET_DISCONNECTED")),
     World {[utf8 "2330_2024Q1.json" := Dumped (Some sample_tables)]}
           [DriverGet url_2330; DriverGet url_2317]).
Proof. vm_compute. reflexivity. Qed.

(** C2, as the specification has it, fails where a wait runs into its
    deadline: the [None] of that key is not written to the cache. *)
Lemma null_result_is_not_cached :
  ¬ written_through_and_repeatable no_table_env [utf8 "2330"] [2024] [1]
      (World ∅ []).
Proof.
  intros Hclaim.
  destruct (Hclaim {[utf8 "2330_2024Q1" := None]} (World ∅ [DriverGet url_2330]))
    as [Hwritten _]; [vm_compute; reflexivity|].
  specialize (Hwritten (utf8 "2330_2024Q1") None).
  rewrite lookup_singleton_eq in Hwritten. specialize (Hwritten eq_refl).
  vm_compute in Hwritten. discriminate.
Qed.

(** The second call asks for the page again. *)
Lemma null_result_is_fetched_again :
  mops_report.fetch_mops_report no_table_env [utf8 "2330"] [2024] [1]
    (World ∅ [DriverGet url_2330])
  = (Returned {[utf8 "2330_2024Q1" := None]},
     World ∅ [DriverGet url_2330; DriverGet url_2330]).
Proof. vm_compute. reflexivity. Qed.

(** A table without a header row has the labels 0, 1, ...: the first call
    returns them as integers, the second, from the cache, as strings. *)
Lemma integer_labels_are_read_back_as_text :
  mops_report.fetch_mops_report headerless_env [utf8 "2330"] [2024] [1]
    (World ∅ [])
  = (Returned {[utf8 "2330_2024Q1" := Some headerless_tables]},
     World {[utf8 "2330_2024Q1.json" := Dumped (Some headerless_tables)]}
           [DriverGet url_2330])
  ∧ mops_report.fetch_mops_report headerless_env [utf8 "2330"] [2024] [1]
      (World {[utf8 "2330_2024Q1.json" := Dumped (Some headerless_tables)]}
             [DriverGet url_2330])
    = (Returned {[utf8 "2330_2024Q1" := Some headerless_tables_read_back]},
       World {[utf8 "2330_2024Q1.json" := Dumped (Some headerless_tables)]}
             [DriverGet url_2330])
  ∧ headerless_tables_read_back ≠ headerless_tables.
Proof. split; [|split]; [vm_compute; reflexivity..|discriminate]. Qed.

(** When the file cannot be written to the end the entry is [None] and
    the file is left cut short; the next call finds the file, cannot read
    it, and raises. *)
Lemma cut_short_file_stops_next_call :
  mops_report.fetch_mops_report disk_full_env [utf8 "2330"] [2024] [1]
    (World ∅ [])
  = (Returned {[utf8 "2330_2024Q1" := None]},
     World {[utf8 "2330_2024Q1.json" := Unreadable cut_short_error]}
           [DriverGet url_2330])
  ∧ mops_report.fetch_mops_report disk_full_env [utf8 "2330"] [2024] [1]
      (World {[utf8 "2330_2024Q1.json" := Unreadable cut_short_error]}
             [DriverGet url_2330])
    = (Raised cut_short_error,
       World {[utf8 "2330_2024Q1.json" := Unreadable cut_short_error]}
             [DriverGet url_2330]).
Proof. split; vm_compute; reflexivity. Qed.

(** Every key has a cache file that reads back as its entry does: the
    loop takes every entry from the cache. *)
Lemma fetch_again_reloaded (E : env) (cs : list (pystr * Z * Z))
    (r : results) (w1 : world) :
  cache_inv r w1 →
  (∀ k, is_Some (r !! k) ↔ k ∈ key_of <$> cs) →
  (∀ k, r !! k ≠ Some None) →
  for_each cs (fetch_combo E) ∅ w1 = (Returned (json_reload <$> r), w1).
Proof.
  intros Hinv Hdom Hfull.
  assert (∀ k tabs, r !! k = Some (Some tabs) →
            ∃ c, files w1 !! mops_report.filename_of k = Some (Dumped c)
                 ∧ json_reload c = json_reload (Some tabs)) as Hfiles.
  { intros k tabs Hk. apply Hinv in Hk.
    destruct (files w1 !! _) as [[c|e]|]; [by exists c|done..]. }
  rewrite fetch_loop_cached.
  - f_equal. f_equal. apply map_eq. intros k.
    rewrite lookup_foldl_cached, lookup_empty, lookup_fmap.
    specialize (Hdom k).
    case_decide as Hin.
    + destruct (proj2 Hdom Hin) as [v Hv].
      rewrite Hv. simpl. f_equal.
      destruct v as [tabs|]; [|by destruct (Hfull k)].
      destruct (Hfiles _ _ Hv) as (c & Hc & Heq).
      unfold cached_value. by rewrite Hc.
    + destruct (r !! k) as [v|] eqn:Hv; [|done].
      by destruct (Hin (proj1 Hdom (mk_is_Some _ _ eq_refl))).
  - intros c Hc.
    destruct (proj2 (Hdom (key_of c))) as [v Hv].
    { apply list_elem_of_fmap. by exists c. }
    destruct v as [tabs|]; [|by destruct (Hfull (key_of c))].
    destruct (Hfiles _ _ Hv) as (c0 & Hc0 & _). by exists c0.
Qed.

(** C2, amended. When the call returns, the tables obtained for a key are
    in the cache file of that key, which reads back as the JSON reading of
    these tables; a key whose entry is [None] has no cache file that holds
    tables. If the mapping returned has no [None] entry, a second call with
    the same arguments returns the JSON reading of the first mapping and
    leaves the world as it was, whatever the network would answer: no page
    is requested and no file is written. *)
Theorem fetch_again_from_cache E1 E2 stock_ids years seasons w r w1 :
  mops_report.fetch_mops_report E1 stock_ids years seasons w = (Returned r, w1) →
  (∀ k tabs, r !! k = Some (Some tabs) →
     ∃ c, files w1 !! mops_report.filename_of k = Some (Dumped c)
          ∧ json_reload c = json_reload (Some tabs))
  ∧ (∀ k tabs, r !! k = Some None →
       files w1 !! mops_report.filename_of k ≠ Some (Dumped (Some tabs)))
  ∧ ((∀ k, r !! k ≠ Some None) →
     mops_report.fetch_mops_report E2 stock_ids years seasons w1
     = (Returned (json_reload <$> r), w1)).
Proof.
  rewrite !fetch_flat. intros Hrun.
  destruct (fetch_loop_returned _ _ _ _ _ _ Hrun (cache_inv_empty w))
    as [Hinv Hdom].
  split; [|split].
  - intros k tabs Hk. apply Hinv in Hk.
    destruct (files w1 !! _) as [[c|e]|]; [by exists c|done..].
  - intros k tabs Hk Hfile. apply Hinv in Hk. by rewrite Hfile in Hk.
  - intros Hfull. apply fetch_again_reloaded; [done| |done].
    intros k. rewrite Hdom, lookup_empty. split; [|by right].
    by intros [[? ?]|?].
Qed.

Lemma fetch_again_from_cache_witness :
  (∀ k tabs, sample_result !! k = Some (Some tabs) →
     ∃ c, files cached_world !! mops_report.filename_of k = Some (Dumped c)
          ∧ json_reload c = json_reload (Some tabs))
  ∧ (∀ k tabs, sample_result !! k = Some None →
       files cached_world !! mops_report.filename_of k
       ≠ Some (Dumped (Some tabs)))
  ∧ ((∀ k, sample_result !! k ≠ Some None) →
     mops_report.fetch_mops_report offline_after_first_env
       [utf8 "2330"] [2024] [1] cached_world
     = (Returned (json_reload <$> sample_result), cached_world)).
Proof.
  apply (fetch_again_from_cache filings_env offline_after_first_env
           [utf8 "2330"] [2024] [1] (World ∅ []) sample_result cached_world).
  vm_compute. reflexivity.
Defined.

(** ** IntentParser *)

Lemma mc_parse_not_json E q w reply e :
  chat_create E (now w) (parse_prompt q) = inr reply →
  json_loads E (strip reply) = inl e →
  mc.parse_question E q w
  = (Returned (JObj [(utf8 "error", JStr (utf8 "解析失敗：" ++ str_exn e));
                     (utf8 "raw", JStr (strip reply))]),
     asked w (parse_prompt q)).
Proof.
  intros Hchat Hjson. unfold mc.parse_question, bind, request. cbv zeta.
  rewrite Hchat. cbv beta iota. by rewrite Hjson.
Qed.

Lemma mo_parse_not_json E q w reply e :
  chat_create E (now w) (parse_prompt q) = inr reply →
  json_loads E (strip reply) = inl e →
  mo.parse_question E q w
  = (Returned (JObj ((utf8 "error", JStr (mo_parse_error e))
                     :: mo_parse_raw e (strip reply))),
     asked w (parse_prompt q)).
Proof.
  intros Hchat Hjson.
  unfold mo.parse_question, bind, try_except, bind, request, ret. cbv zeta.
  rewrite Hchat. cbv beta iota. rewrite Hjson. by destruct e.
Qed.

Lemma mc_parse_json E q w reply doc :
  chat_create E (now w) (parse_prompt q) = inr reply →
  json_loads E (strip reply) = inr doc →
  mc.parse_question E q w = (Returned doc, asked w (parse_prompt q)).
Proof.
  intros Hchat Hjson. unfold mc.parse_question, bind, request. cbv zeta.
  rewrite Hchat. cbv beta iota. by rewrite Hjson.
Qed.

Lemma mo_parse_json E q w reply doc :
  chat_create E (now w) (parse_prompt q) = inr reply →
  json_loads E (strip reply) = inr doc →
  mo.parse_question E q w = (Returned doc, asked w (parse_prompt q)).
Proof.
  intros Hchat Hjson.
  unfold mo.parse_question, bind, try_except, bind, request, ret. cbv zeta.
  rewrite Hchat. cbv beta iota. by rewrite Hjson.
Qed.

(** C6, as the specification has it, fails for a reply with white space
    around it: the reply is stripped before it is parsed and kept. *)
Lemma raw_is_not_the_reply :
  ¬ carries_reply_unmodified prose_env question_1 (World ∅ []).
Proof.
  intros Hclaim.
  destruct (Hclaim prose_reply eq_refl) as [(parsed & w' & Hrun & Hraw) _].
  { by eexists. }
  vm_compute in Hrun. injection Hrun as <- _.
  vm_compute in Hraw. discriminate.
Qed.

(** A reply nested too deeply is no JSON either, and [json.loads] raises
    [RecursionError] on it: [mc.py] keeps the reply under "raw", [mo.py]
    gives the error alone. *)
Lemma deep_reply_has_no_raw_in_mo :
  mc.parse_question deep_reply_env question_1 (World ∅ [])
  = (Returned (JObj [(utf8 "error", JStr (utf8 "解析失敗：" ++ str_exn deep_error));
                     (utf8 "raw", JStr (strip deep_reply))]),
     World ∅ [ChatCreate (parse_prompt question_1)])
  ∧ mo.parse_question deep_reply_env question_1 (World ∅ [])
    = (Returned (JObj [(utf8 "error", JStr (utf8 "解析失敗：" ++ str_exn deep_error))]),
       World ∅ [ChatCreate (parse_prompt question_1)]).
Proof.
  split.
  - by apply (mc_parse_not_json deep_reply_env question_1 (World ∅ [])
                deep_reply deep_error).
  - by apply (mo_parse_not_json deep_reply_env question_1 (World ∅ [])
                deep_reply deep_error).
Qed.

(** C6, amended. When [json.loads] rejects the reply of the model, stripped
    of leading and trailing white space, [parse_question] returns an error
    dictionary and raises nothing, and the only request is the model call.
    In [mc.py] the dictionary has the message of the exception after a
    fixed prefix under "error" and the stripped reply under "raw". In
    [mo.py] it is the same, with a longer prefix, when the exception is a
    [JSONDecodeError]; for any other exception of [json.loads] it has the
    "error" entry only. *)
Theorem parse_failure_carries_stripped_reply E q w reply e :
  chat_create E (now w) (parse_prompt q) = inr reply →
  json_loads E (strip reply) = inl e →
  mc.parse_question E q w
  = (Returned (JObj [(utf8 "error", JStr (utf8 "解析失敗：" ++ str_exn e));
                     (utf8 "raw", JStr (strip reply))]),
     World (files w) (trace w ++ [ChatCreate (parse_prompt q)]))
  ∧ mo.parse_question E q w
    = (Returned
         match e with
         | JSONDecodeError msg =>
             JObj [(utf8 "error", JStr (utf8 "解析失敗：無法解析 JSON: " ++ msg));
                   (utf8 "raw", JStr (strip reply))]
         | _ => JObj [(utf8 "error", JStr (utf8 "解析失敗：" ++ str_exn e))]
         end,
       World (files w) (trace w ++ [ChatCreate (parse_prompt q)])).
Proof.
  intros Hchat Hjson. split; [by apply mc_parse_not_json|].
  rewrite (mo_parse_not_json _ _ _ _ _ Hchat Hjson). by destruct e.
Qed.

Lemma parse_failure_carries_stripped_reply_witness :
  mc.parse_question prose_env question_1 (World ∅ [])
  = (Returned (JObj [(utf8 "error",
                      JStr (utf8 "解析失敗：" ++ utf8 "Expecting value: line 1 column 1 (char 0)"));
                     (utf8 "raw", JStr (strip prose_reply))]),
     World ∅ ([] ++ [ChatCreate (parse_prompt question_1)]))
  ∧ mo.parse_question prose_env question_1 (World ∅ [])
    = (Returned (JObj [(utf8 "error",
                        JStr (utf8 "解析失敗：無法解析 JSON: "
                              ++ utf8 "Expecting value: line 1 column 1 (char 0)"));
                       (utf8 "raw", JStr (strip prose_reply))]),
       World ∅ ([] ++ [ChatCreate (parse_prompt question_1)])).
Proof.
  apply (parse_failure_carries_stripped_reply prose_env question_1
           (World ∅ []) prose_reply
           (JSONDecodeError (utf8 "Expecting value: line 1 column 1 (char 0)")));
    reflexivity.
Defined.

(** ** Synthesizer *)

(** C5. In [mc.py] the final model call stands outside any [try]: when the
    model is unreachable at that point, the exception leaves
    [etnews_finance_summary]. *)
Theorem mc_summary_raises_on_model_failure :
  mc.etnews_finance_summary model_down_env question_1 1 5 (World ∅ [])
  = (Raised (Error (utf8 "Connection error.")),
     World ∅
       [ChatCreate (parse_prompt question_1);
        SearchGet (utf8 "https://www.ettoday.net/news_search/doSearch.php?keywords=鴻海配息&page=1");
        ArticleGet (utf8 "https://www.ettoday.net/news/1");
        ArticleGet (utf8 "https://www.ettoday.net/news/2");
        ChatCreate (mc.answer_prompt question_1 model_down_articles)]).
Proof. vm_compute. reflexivity. Qed.

(** The same run through [mo.py], whose final call is inside a [try]. *)
Lemma mo_summary_reports_model_failure :
  mo.etnews_finance_summary model_down_env question_1 1 5 (World ∅ [])
  = (Returned (Text (utf8 "❌ GPT 分析失敗：Connection error.")),
     World ∅
       [ChatCreate (parse_prompt question_1);
        SearchGet (utf8 "https://www.ettoday.net/news_search/doSearch.php?keywords=鴻海配息&page=1");
        ArticleGet (utf8 "https://www.ettoday.net/news/1");
        ArticleGet (utf8 "https://www.ettoday.net/news/2");
        ChatCreate (mo.summary_prompt question_1 model_down_articles 5)]).
Proof. vm_compute. reflexivity. Qed.

(** The final step of [mc.py], for any question and articles. *)
Lemma mc_gpt_answer_raises E q articles w e :
  chat_create E (now w) (mc.answer_prompt q articles) = inl e →
  mc._gpt_answer E q articles w
  = (Raised e, asked w (mc.answer_prompt q articles)).
Proof.
  intros Hchat. unfold mc._gpt_answer, bind, request. cbv zeta.
  by rewrite Hchat.
Qed.

(** The final step of [analyze_financial_data] in [mo.py] never raises. *)
Lemma mo_analyze_gathered_returns E q stock_id company topic pages w :
  run_post (mo.analyze_gathered E q stock_id company topic pages w)
    (λ _ _, True) (λ e _, e = KeyError (utf8 "href")).
Proof.
  unfold mo.analyze_gathered. cbv zeta. unfold bind at 1.
  set (kw := strip _).
  assert (∀ news w1,
    run_post
      ((reports <- (if truthy stock_id then
                      try_except
                        (r <- mops_report.fetch_mops_report E
                                [py_str E stock_id] [2024; 2023] [1; 4] ;;
                         ret (inr r))
                        (λ e, ret (inl (utf8 "財報抓取失敗：" ++ str_exn e)))
                    else ret (inr ∅)) ;;
        mo.analyze_answer E q stock_id company news reports) w1)
      (λ _ _, True) (λ e _, e = KeyError (utf8 "href"))) as Htail.
  { intros news w1. unfold bind at 1.
    destruct (truthy stock_id).
    - unfold try_except at 1. unfold bind at 1.
      destruct (mops_report.fetch_mops_report _ _ _ _ _) as [[r|e] w2];
        unfold ret, mo.analyze_answer; unfold try_except, bind, request;
        by destruct (chat_create _ _ _).
    - unfold ret, mo.analyze_answer. unfold try_except, bind, request.
      by destruct (chat_create _ _ _). }
  destruct kw as [|c kw'].
  - apply Htail.
  - pose proof (crawl_post E (c :: kw') pages w) as Hpost.
    destruct (news_summary.crawl_etnews_articles _ _ _ _) as [[news|e] w1];
      [apply Htail|done].
Qed.

(** ** The pipeline *)

Lemma dict_lookup_none key fields :
  dict_lookup key fields = None →
  existsb (λ kv, pystr_eqb kv.1 key) fields = false.
Proof.
  unfold dict_lookup. induction fields as [|[k v] fields IH]; [done|].
  cbn [list_find existsb]. unfold pystr_eqb at 1. simpl.
  destruct (decide (k = key)) as [->|Hne].
  - discriminate.
  - rewrite bool_decide_eq_false_2 by done. simpl. intros Hfind. apply IH.
    destruct (list_find _ fields); [done|done].
Qed.

Lemma chats_page_fetches evs : Forall is_page_fetch evs → chats evs = [].
Proof.
  induction 1 as [|ev evs Hev _ IH]; [done|].
  unfold chats in *. destruct ev; simpl in *; done.
Qed.

(** What is left of [etnews_finance_summary] in [mc.py] once the intent is
    parsed. *)
Lemma mc_summary_after_parse E q pages limit w fields w1 :
  mc.parse_question E q w = (Returned (JObj fields), w1) →
  dict_lookup (utf8 "error") fields = None →
  mc.etnews_finance_summary E q pages limit w
  = (if keyword_of E fields is [] then ret (Text (utf8 "⚠️ 無法組出有效關鍵字"))
     else
       articles <- mc._crawl_ettoday E (keyword_of E fields) pages ;;
       if articles is [] then ret (Text advisory)
       else answer <- mc._gpt_answer E q (slice_to limit articles) ;;
            ret (Text answer)) w1.
Proof.
  intros Hparse Herr. unfold mc.etnews_finance_summary.
  unfold bind at 1. rewrite Hparse.
  unfold bind at 1. unfold py_in, ret at 1.
  rewrite (dict_lookup_none _ _ Herr). reflexivity.
Qed.

Lemma mo_summary_after_parse E q pages limit w fields w1 :
  mo.parse_question E q w = (Returned (JObj fields), w1) →
  dict_lookup (utf8 "error") fields = None →
  mo.etnews_finance_summary E q pages limit w
  = (if keyword_of E fields is [] then ret (Text (utf8 "⚠️ 無法組出有效關鍵字"))
     else
       articles <- news_summary.crawl_etnews_articles E (keyword_of E fields) pages ;;
       if articles is [] then ret (Text advisory)
       else
         let prompt := mo.summary_prompt q articles limit in
         try_except
           (chat <- request (ChatCreate prompt) (λ t, chat_create E t prompt) ;;
            ret (Text (strip chat)))
           (λ e, ret (Text (utf8 "❌ GPT 分析失敗：" ++ str_exn e)))) w1.
Proof.
  intros Hparse Herr. unfold mo.etnews_finance_summary.
  unfold bind at 1. rewrite Hparse.
  unfold bind at 1. unfold py_in, ret at 1.
  rewrite (dict_lookup_none _ _ Herr). reflexivity.
Qed.

(** X23. In [mo.py] a failure of the final model call is reported as text,
    for any question and any articles. *)
Lemma mo_synthesis_failure_is_reported E q pages limit w fields w1 articles w2 e :
  mo.parse_question E q w = (Returned (JObj fields), w1) →
  dict_lookup (utf8 "error") fields = None →
  keyword_of E fields ≠ [] →
  news_summary.crawl_etnews_articles E (keyword_of E fields) pages w1
  = (Returned articles, w2) →
  articles ≠ [] →
  chat_create E (now w2) (mo.summary_prompt q articles limit) = inl e →
  mo.etnews_finance_summary E q pages limit w
  = (Returned (Text (utf8 "❌ GPT 分析失敗：" ++ str_exn e)),
     asked w2 (mo.summary_prompt q articles limit)).
Proof.
  intros Hparse Herr Hkw Hcrawl Harts Hchat.
  rewrite (mo_summary_after_parse E q pages limit w fields w1 Hparse Herr).
  destruct (keyword_of E fields) as [|c kw]; [done|].
  unfold bind at 1. rewrite Hcrawl.
  destruct articles as [|a articles]; [done|].
  cbv zeta. unfold try_except, bind, request. by rewrite Hchat.
Qed.

(** C8, as the specification quotes the advisory: the string returned
    starts with a warning sign and a space, which the quoted text lacks. *)
Lemma advisory_is_not_the_quoted_text :
  ¬ returns_text
      (mc.etnews_finance_summary (intent_env (utf8 "鴻海") (utf8 "2317") (utf8 "配息"))
         question_1 1 5 (World ∅ []))
      (utf8 "找不到符合條件的新聞。請換個問題試試。").
Proof. unfold returns_text. vm_compute. intros Heq. discriminate Heq. Qed.

(** C8, amended. The intent is parsed and has no "error" entry, its keyword
    is not empty, and the crawl for that keyword returns no article. Then
    [etnews_finance_summary] (in [mc.py] and in [mo.py]) returns the string
    "⚠️ 找不到符合條件的新聞。請換個問題試試。" in the world the crawl left: the only
    prompt sent to the model during the call is the parse prompt. *)
Theorem no_articles_gives_advisory E q pages limit w reply fields w2 :
  chat_create E (now w) (parse_prompt q) = inr reply →
  json_loads E (strip reply) = inr (JObj fields) →
  dict_lookup (utf8 "error") fields = None →
  keyword_of E fields ≠ [] →
  news_summary.crawl_etnews_articles E (keyword_of E fields) pages
    (asked w (parse_prompt q)) = (Returned [], w2) →
  mc.etnews_finance_summary E q pages limit w
  = (Returned (Text (utf8 "⚠️ 找不到符合條件的新聞。請換個問題試試。")), w2)
  ∧ mo.etnews_finance_summary E q pages limit w
    = (Returned (Text (utf8 "⚠️ 找不到符合條件的新聞。請換個問題試試。")), w2)
  ∧ chats (trace w2) = chats (trace w) ++ [parse_prompt q].
Proof.
  intros Hchat Hjson Herr Hkw Hcrawl.
  rewrite (mc_summary_after_parse E q pages limit w fields _
             (mc_parse_json _ _ _ _ _ Hchat Hjson) Herr).
  rewrite (mo_summary_after_parse E q pages limit w fields _
             (mo_parse_json _ _ _ _ _ Hchat Hjson) Herr).
  destruct (keyword_of E fields) as [|c kw] eqn:Hk; [done|].
  unfold bind. rewrite mc_crawl_same, Hcrawl.
  split; [done|]. split; [done|].
  pose proof (crawl_post E (c :: kw) pages (asked w (parse_prompt q))) as Hpost.
  rewrite Hcrawl in Hpost. destruct Hpost as (_ & evs & -> & Hev & _).
  unfold chats. simpl. rewrite !omap_app. simpl.
  fold (chats evs). by rewrite (chats_page_fetches _ Hev), app_nil_r.
Qed.

Lemma no_articles_gives_advisory_witness :
  let E := intent_env (utf8 "鴻海") (utf8 "2317") (utf8 "配息") in
  let w2 := World ∅ [ChatCreate (parse_prompt question_1);
                     SearchGet (utf8 "https://www.ettoday.net/news_search/doSearch.php?keywords=鴻海配息&page=1")] in
  mc.etnews_finance_summary E question_1 1 5 (World ∅ [])
  = (Returned (Text (utf8 "⚠️ 找不到符合條件的新聞。請換個問題試試。")), w2)
  ∧ mo.etnews_finance_summary E question_1 1 5 (World ∅ [])
    = (Returned (Text (utf8 "⚠️ 找不到符合條件的新聞。請換個問題試試。")), w2)
  ∧ chats (trace w2) = chats [] ++ [parse_prompt question_1].
Proof.
  intros E w2.
  apply (no_articles_gives_advisory E question_1 1 5 (World ∅ [])
           (intent_text (utf8 "鴻海") (utf8 "2317") (utf8 "配息"))
           [(utf8 "company", JStr (utf8 "鴻海")); (utf8 "stock_id", JStr (utf8 "2317"));
            (utf8 "topic", JStr (utf8 "配息"))] w2).
  - reflexivity.
  - vm_compute. reflexivity.
  - vm_compute. reflexivity.
  - vm_compute. discriminate.
  - vm_compute. reflexivity.
Defined.

(** C3, as the specification has it, fails: the stock id of the intent is
    not checked. With the stock id "AAPL", [analyze_financial_data] searches
    the news, asks for the four filing pages of "AAPL" and returns the
    answer of the model; with an empty stock id, [etnews_finance_summary]
    searches the news all the same. *)
Lemma stock_id_is_not_checked :
  (∃ final_prompt,
     mo.analyze_financial_data
       (intent_env (utf8 "蘋果") (utf8 "AAPL") (utf8 "財報")) question_1 [] [] [] 1
       (World ∅ [])
     = (Returned (utf8 "分析如下。"),
        World ∅
          [ChatCreate (parse_prompt question_1);
           SearchGet (utf8 "https://www.ettoday.net/news_search/doSearch.php?keywords=蘋果財報&page=1");
           DriverGet (mops_report.report_url (utf8 "AAPL") 2024 1);
           DriverGet (mops_report.report_url (utf8 "AAPL") 2024 4);
           DriverGet (mops_report.report_url (utf8 "AAPL") 2023 1);
           DriverGet (mops_report.report_url (utf8 "AAPL") 2023 4);
           ChatCreate final_prompt]))
  ∧ mc.etnews_finance_summary
      (intent_env (utf8 "鴻海") [] (utf8 "配息")) question_1 1 5 (World ∅ [])
    = (Returned (Text advisory),
       World ∅
         [ChatCreate (parse_prompt question_1);
          SearchGet (utf8 "https://www.ettoday.net/news_search/doSearch.php?keywords=鴻海配息&page=1")]).
Proof.
  split.
  - eexists. vm_compute. reflexivity.
  - vm_compute. reflexivity.
Qed.

(** C3, amended. The pipeline fails fast on a parse failure, not on the
    stock id: when [json.loads] rejects the stripped reply of the model to
    the parse prompt, [analyze_financial_data] (called without stock id or
    without company) returns the parse-failure message and
    [etnews_finance_summary] returns the error dictionary, and the world is
    the one the model call left: no search page, article or filing page is
    requested. The dictionary of [mc.py] carries the stripped reply; that
    of [mo.py] carries it when the exception is a [JSONDecodeError] and the
    empty string otherwise. *)
Theorem parse_failure_stops_before_fetching
    E q stock_id company topic pages limit w reply e :
  stock_id = [] ∨ company = [] →
  chat_create E (now w) (parse_prompt q) = inr reply →
  json_loads E (strip reply) = inl e →
  mo.analyze_financial_data E q stock_id company topic pages w
  = (Returned (utf8 "⚠️ 問題解析失敗：" ++ mo_parse_error e),
     World (files w) (trace w ++ [ChatCreate (parse_prompt q)]))
  ∧ mo.etnews_finance_summary E q pages limit w
    = (Returned (ErrorDict (utf8 "問題解析失敗：" ++ mo_parse_error e)
                           match e with
                           | JSONDecodeError _ => JStr (strip reply)
                           | _ => JStr []
                           end),
       World (files w) (trace w ++ [ChatCreate (parse_prompt q)]))
  ∧ mc.etnews_finance_summary E q pages limit w
    = (Returned (ErrorDict (utf8 "問題解析失敗：" ++ utf8 "解析失敗：" ++ str_exn e)
                           (JStr (strip reply))),
       World (files w) (trace w ++ [ChatCreate (parse_prompt q)])).
Proof.
  intros Hempty Hchat Hjson.
  pose proof (mo_parse_not_json _ _ _ _ _ Hchat Hjson) as Hmo.
  pose proof (mc_parse_not_json _ _ _ _ _ Hchat Hjson) as Hmc.
  split; [|split].
  - unfold mo.analyze_financial_data.
    assert (negb (truthy (JStr stock_id)) || negb (truthy (JStr company)) = true)
      as ->.
    { destruct Hempty as [-> | ->]; [done|]. apply orb_true_r. }
    unfold bind at 1. rewrite Hmo. reflexivity.
  - unfold mo.etnews_finance_summary. unfold bind at 1. rewrite Hmo.
    by destruct e.
  - unfold mc.etnews_finance_summary. unfold bind at 1. rewrite Hmc.
    reflexivity.
Qed.

Lemma parse_failure_stops_before_fetching_witness :
  let e := JSONDecodeError (utf8 "Expecting value: line 1 column 1 (char 0)") in
  let w1 := World ∅ ([] ++ [ChatCreate (parse_prompt question_1)]) in
  mo.analyze_financial_data prose_env question_1 [] [] [] 1 (World ∅ [])
  = (Returned (utf8 "⚠️ 問題解析失敗：" ++ mo_parse_error e), w1)
  ∧ mo.etnews_finance_summary prose_env question_1 1 5 (World ∅ [])
    = (Returned (ErrorDict (utf8 "問題解析失敗：" ++ mo_parse_error e)
                           (JStr (strip prose_reply))), w1)
  ∧ mc.etnews_finance_summary prose_env question_1 1 5 (World ∅ [])
    = (Returned (ErrorDict (utf8 "問題解析失敗：" ++ utf8 "解析失敗：" ++ str_exn e)
                           (JStr (strip prose_reply))), w1).
Proof.
  intros e w1.
  apply (parse_failure_stops_before_fetching prose_env question_1 [] [] [] 1 5
           (World ∅ []) prose_reply e).
  - left. reflexivity.
  - reflexivity.
  - reflexivity.
Defined.

(** With an empty stock id, [analyze_financial_data] asks for no filing
    page. *)
Lemma empty_stock_id_skips_filings E q company topic pages w :
  run_post (mo.analyze_gathered E q (JStr []) company topic pages w)
    (λ _ w', ∀ url, DriverGet url ∈ trace w' → DriverGet url ∈ trace w)
    (λ _ _, True).
Proof.
  unfold mo.analyze_gathered. cbv zeta. unfold bind at 1.
  set (kw := strip _).
  assert (∀ news w1,
    (∀ url, DriverGet url ∈ trace w1 → DriverGet url ∈ trace w) →
    run_post
      ((reports <- ret (inr ∅) ;;
        mo.analyze_answer E q (JStr []) company news reports) w1)
      (λ _ w', ∀ url, DriverGet url ∈ trace w' → DriverGet url ∈ trace w)
      (λ _ _, True)) as Htail.
  { intros news w1 Hw1. unfold bind, ret, mo.analyze_answer.
    unfold try_except, bind, request.
    destruct (chat_create _ _ _); simpl; intros url Hin; apply Hw1;
      apply elem_of_app in Hin as [?|Hin]; try done;
      by apply list_elem_of_singleton in Hin. }
  destruct kw as [|c kw'].
  - by apply Htail.
  - pose proof (crawl_post E (c :: kw') pages w) as Hpost.
    destruct (news_summary.crawl_etnews_articles _ _ _ _) as [[news|e] w1];
      [|done].
    apply Htail. destruct Hpost as (_ & evs & -> & Hev & _).
    intros url Hin. apply elem_of_app in Hin as [?|Hin]; [done|].
    rewrite Forall_forall in Hev. by apply Hev in Hin.
Qed.

(** ** EvidenceAssembler *)

Lemma slice_to_nonneg {A} (n : Z) (l : list A) :
  0 ≤ n → slice_to n l = take (Z.to_nat n) l.
Proof. intros Hn. unfold slice_to. by rewrite (proj2 (Z.leb_le 0 n)). Qed.

Lemma doc_is_block i a :
  mo.doc i a
  = render_block (Block (Z.of_nat i + 1) (title a) (link a) (take 3000 (content a))).
Proof. reflexivity. Qed.

Lemma docs_are_blocks articles n :
  imap mo.doc (take n articles) = render_block <$> spec_assemble articles n.
Proof.
  unfold spec_assemble. rewrite fmap_imap. apply imap_ext.
  intros i a _. apply doc_is_block.
Qed.

(** C7, as the specification has it, fails for a negative bound, which a
    slice counts from the end: three articles and the bound -1 give two
    blocks. *)
Lemma negative_limit_keeps_articles :
  ¬ (Z.of_nat (length (mo.docs three_articles (-1))) ≤ -1).
Proof. vm_compute. intros Hle. apply Hle. reflexivity. Qed.

(** C7, amended. For a bound [limit >= 0] the corpus of
    [etnews_finance_summary] (both files) and of [analyze] is the blocks of
    [spec_assemble] joined by a newline: the first [limit] articles in
    their order, numbered from 1; there are at most [limit] blocks, and the
    body in every block has at most 3000 characters. *)
Theorem corpus_within_budget (articles : list article) (limit : Z) :
  0 ≤ limit →
  let blocks := spec_assemble articles (Z.to_nat limit) in
  mo.corpus articles limit = join nl (render_block <$> blocks)
  ∧ mc.corpus (slice_to limit articles) = join nl (render_block <$> blocks)
  ∧ server.news_text (Some articles) limit
    = (if articles is [] then utf8 "無" else join nl (render_block <$> blocks))
  ∧ Z.of_nat (length blocks) ≤ limit
  ∧ Forall (λ b, (length (body b) ≤ 3000)%nat) blocks.
Proof.
  intros Hlimit blocks. subst blocks.
  unfold mo.corpus, mo.docs, mc.corpus, mc.docs, server.news_text.
  rewrite slice_to_nonneg by done.
  rewrite <- docs_are_blocks.
  split; [done|]. split; [done|]. split.
  { by destruct articles. }
  split.
  - unfold spec_assemble. rewrite length_imap, length_take. lia.
  - apply Forall_forall. intros b Hb. unfold spec_assemble in Hb.
    apply elem_of_lookup_imap_1 in Hb as (i & a & -> & _). simpl.
    rewrite length_take. lia.
Qed.

Lemma corpus_within_budget_witness :
  let blocks := spec_assemble three_articles (Z.to_nat 2) in
  mo.corpus three_articles 2 = join nl (render_block <$> blocks)
  ∧ mc.corpus (slice_to 2 three_articles) = join nl (render_block <$> blocks)
  ∧ server.news_text (Some three_articles) 2
    = join nl (render_block <$> blocks)
  ∧ Z.of_nat (length blocks) ≤ 2
  ∧ Forall (λ b, (length (body b) ≤ 3000)%nat) blocks.
Proof. apply (corpus_within_budget three_articles 2). lia. Defined.

(** ** What the runs leave untouched *)

Section world_relation.
Context (P : event → Prop).
Context (F : gmap (list N) file_content → gmap (list N) file_content → Prop).
Context `{!Reflexive F, !Transitive F}.

Lemma extends_refl w : extends P F w w.
Proof. split; [done|]. exists []. by rewrite app_nil_r. Qed.

Lemma extends_trans w1 w2 w3 :
  extends P F w1 w2 → extends P F w2 w3 → extends P F w1 w3.
Proof.
  intros (Hf1 & evs1 & Ht1 & Hp1) (Hf2 & evs2 & Ht2 & Hp2).
  split; [by etrans|]. exists (evs1 ++ evs2).
  rewrite Ht2, Ht1, <- app_assoc. split; [done|]. by apply Forall_app.
Qed.

Lemma preserves_ret {A} (a : A) : preserves (extends P F) (ret a).
Proof. intros w. apply extends_refl. Qed.

Lemma preserves_raise {A} e : preserves (extends P F) (raise (A:=A) e).
Proof. intros w. apply extends_refl. Qed.

Lemma preserves_bind {A B} (m : M A) (k : A → M B) :
  preserves (extends P F) m → (∀ a, preserves (extends P F) (k a)) →
  preserves (extends P F) (bind m k).
Proof.
  intros Hm Hk w. unfold bind. specialize (Hm w).
  destruct (m w) as [[a|e] w1]; simpl in *; [|done].
  eapply extends_trans; [done|]. apply Hk.
Qed.

Lemma preserves_try_except {A} (m : M A) (handler : exn → M A) :
  preserves (extends P F) m → (∀ e, preserves (extends P F) (handler e)) →
  preserves (extends P F) (try_except m handler).
Proof.
  intros Hm Hh w. unfold try_except. specialize (Hm w).
  destruct (m w) as [[a|e] w1]; simpl in *; [done|].
  eapply extends_trans; [done|]. apply Hh.
Qed.

Lemma preserves_for_each {A S} (l : list A) (body : A → S → M S) :
  (∀ x s, preserves (extends P F) (body x s)) →
  ∀ s, preserves (extends P F) (for_each l body s).
Proof.
  intros Hbody. induction l as [|x l IH]; intros s; simpl.
  - apply preserves_ret.
  - apply preserves_bind; [apply Hbody|apply IH].
Qed.

Lemma preserves_request {A} ev (answer : nat → exn + A) :
  P ev → preserves (extends P F) (request ev answer).
Proof.
  intros Hev w. unfold request.
  assert (extends P F w (World (files w) (trace w ++ [ev]))) as Hw.
  { split; [done|]. exists [ev]. split; [done|]. by constructor. }
  by destruct (answer (now w)).
Qed.

Lemma preserves_py_in key v : preserves (extends P F) (py_in key v).
Proof. destruct v; first [apply preserves_ret | apply preserves_raise]. Qed.

Lemma preserves_py_get v key dflt : preserves (extends P F) (py_get v key dflt).
Proof. destruct v; first [apply preserves_ret | apply preserves_raise]. Qed.

Lemma preserves_py_getitem v key : preserves (extends P F) (py_getitem v key).
Proof.
  destruct v; try apply preserves_raise. simpl.
  destruct (dict_lookup key fields); [apply preserves_ret|apply preserves_raise].
Qed.

Lemma preserves_crawl E kw pages :
  (∀ u, P (SearchGet u)) → (∀ u, P (ArticleGet u)) →
  preserves (extends P F) (news_summary.crawl_etnews_articles E kw pages).
Proof.
  intros Hs Ha. unfold news_summary.crawl_etnews_articles.
  apply preserves_for_each. intros page arts.
  unfold news_summary.crawl_page. cbv zeta. apply preserves_bind.
  - apply preserves_try_except; [|intros; apply preserves_ret].
    apply preserves_bind; [by apply preserves_request|intros; apply preserves_ret].
  - intros [boxes|]; [|apply preserves_ret].
    apply preserves_for_each. intros b arts2.
    unfold news_summary.crawl_box.
    destruct (title_tag b) as [a|]; [|apply preserves_ret].
    destruct (date_tag b) as [d|]; [|apply preserves_ret].
    apply preserves_bind.
    { unfold news_summary.getitem_href.
      destruct (a_href a); [apply preserves_ret|apply preserves_raise]. }
    intros l. apply preserves_bind; [|intros; apply preserves_ret].
    apply preserves_try_except; [|intros; apply preserves_ret].
    apply preserves_bind; [by apply preserves_request|intros; apply preserves_ret].
Qed.

Lemma preserves_mc_parse E q :
  (∀ p, P (ChatCreate p)) → preserves (extends P F) (mc.parse_question E q).
Proof.
  intros Hc. unfold mc.parse_question. cbv zeta.
  apply preserves_bind; [by apply preserves_request|].
  intros chat. destruct (json_loads E (strip chat)); apply preserves_ret.
Qed.

Lemma preserves_mo_parse E q :
  (∀ p, P (ChatCreate p)) → preserves (extends P F) (mo.parse_question E q).
Proof.
  intros Hc. unfold mo.parse_question. cbv zeta. apply preserves_bind.
  - apply preserves_try_except; [|intros; apply preserves_ret].
    apply preserves_bind; [by apply preserves_request|intros; apply preserves_ret].
  - intros [e|result].
    + destruct e; first [apply preserves_ret | apply preserves_raise].
    + destruct (json_loads E result) as [[]|]; apply preserves_ret.
Qed.

Lemma preserves_mc_summary E q pages limit :
  (∀ p, P (ChatCreate p)) → (∀ u, P (SearchGet u)) → (∀ u, P (ArticleGet u)) →
  preserves (extends P F) (mc.etnews_finance_summary E q pages limit).
Proof.
  intros Hc Hs Ha. unfold mc.etnews_finance_summary.
  apply preserves_bind; [by apply preserves_mc_parse|]. intros parsed.
  apply preserves_bind; [apply preserves_py_in|]. intros [|].
  - apply preserves_bind; [apply preserves_py_getitem|]. intros err.
    apply preserves_bind; [apply preserves_py_get|]. intros; apply preserves_ret.
  - apply preserves_bind; [apply preserves_py_get|]. intros company.
    apply preserves_bind; [apply preserves_py_get|]. intros topic. cbv zeta.
    destruct (strip _) as [|c kw]; [apply preserves_ret|].
    apply preserves_bind; [by apply (preserves_crawl E (c :: kw) pages)|].
    intros [|a arts]; [apply preserves_ret|].
    apply preserves_bind; [|intros; apply preserves_ret].
    unfold mc._gpt_answer. cbv zeta.
    apply preserves_bind; [by apply preserves_request|intros; apply preserves_ret].
Qed.

Lemma preserves_mo_summary E q pages limit :
  (∀ p, P (ChatCreate p)) → (∀ u, P (SearchGet u)) → (∀ u, P (ArticleGet u)) →
  preserves (extends P F) (mo.etnews_finance_summary E q pages limit).
Proof.
  intros Hc Hs Ha. unfold mo.etnews_finance_summary.
  apply preserves_bind; [by apply preserves_mo_parse|]. intros parsed.
  apply preserves_bind; [apply preserves_py_in|]. intros [|].
  - apply preserves_bind; [apply preserves_py_getitem|]. intros err.
    apply preserves_bind; [apply preserves_py_get|]. intros; apply preserves_ret.
  - apply preserves_bind; [apply preserves_py_get|]. intros company.
    apply preserves_bind; [apply preserves_py_get|]. intros topic. cbv zeta.
    destruct (strip _) as [|c kw]; [apply preserves_ret|].
    apply preserves_bind; [by apply (preserves_crawl E (c :: kw) pages)|].
    intros [|a arts]; [apply preserves_ret|]. cbv zeta.
    apply preserves_try_except; [|intros; apply preserves_ret].
    apply preserves_bind; [by apply preserves_request|intros; apply preserves_ret].
Qed.

End world_relation.

Lemma extends_mono (P Q : event → Prop) F w w' :
  (∀ ev, P ev → Q ev) → extends P F w w' → extends Q F w w'.
Proof.
  intros HPQ (Hf & evs & Ht & Hp). split; [done|]. exists evs. split; [done|].
  eapply Forall_impl; [exact Hp|exact HPQ].
Qed.

Lemma preserves_fetch_one E s y q r :
  preserves (extends is_filing_request (⊆)) (mops_report.fetch_one E s y q r).
Proof.
  intros w. rewrite fetch_one_run. cbv zeta.
  destruct (files w !! _) as [[v|e]|] eqn:Hfile;
    [apply extends_refl; apply _..|].
  assert (∀ A (o : outcome A) f, files w ⊆ f →
            extends is_filing_request (⊆) w
              (o, World f (trace w ++ [DriverGet (mops_report.report_url s y q)])).2)
    as Hstep.
  { intros A o f Hf. split; [done|]. eexists [_].
    split; [done|by repeat constructor]. }
  destruct (driver_get E (now w) _) as [e|[e|ts]]; [by apply Hstep..|].
  destruct (open_write E _ _) as [e|]; [by apply Hstep|].
  destruct (dump_error E _) as [[e e_read]|];
    apply Hstep; by apply insert_subseteq.
Qed.

Lemma preserves_fetch E stock_ids years seasons :
  preserves (extends is_filing_request (⊆))
    (mops_report.fetch_mops_report E stock_ids years seasons).
Proof.
  unfold mops_report.fetch_mops_report.
  apply preserves_for_each; [apply _..|]. intros s r1.
  apply preserves_for_each; [apply _..|]. intros y r2.
  apply preserves_for_each; [apply _..|]. intros q r3.
  apply preserves_fetch_one.
Qed.

(** X1. Whether it returns or raises, the crawler leaves the cache files as
    they were and issues nothing but search-page and article requests, in
    [crawl_etnews_articles] and in the copy of [mc.py]. *)
Theorem crawl_only_fetches_pages E kw pages w :
  extends is_page_fetch eq w (news_summary.crawl_etnews_articles E kw pages w).2
  ∧ extends is_page_fetch eq w (mc._crawl_ettoday E kw pages w).2.
Proof.
  assert (extends is_page_fetch eq w
            (news_summary.crawl_etnews_articles E kw pages w).2) as Hrun.
  { by apply (preserves_crawl is_page_fetch eq). }
  split; exact Hrun.
Qed.

(** X2. Whether it returns or raises, [etnews_finance_summary] (both files)
    requests no filing page and leaves the cache files as they were. *)
Theorem summary_leaves_filings_alone E q pages limit w :
  extends no_filing_request eq w (mc.etnews_finance_summary E q pages limit w).2
  ∧ extends no_filing_request eq w (mo.etnews_finance_summary E q pages limit w).2.
Proof.
  split.
  - by apply (preserves_mc_summary no_filing_request eq).
  - by apply (preserves_mo_summary no_filing_request eq).
Qed.

(** X3. Whether it returns or raises, [fetch_mops_report] issues nothing but
    filing-page requests, and every cache file there was before the call is
    there afterwards with the same content: a cache entry is never
    refreshed or removed. *)
Theorem fetch_keeps_cache_files E stock_ids years seasons w :
  extends is_filing_request (⊆) w
    (mops_report.fetch_mops_report E stock_ids years seasons w).2.
Proof. apply preserves_fetch. Qed.

(** ** Composite keys *)

Lemma utf8_fold_ascii bytes out :
  Forall (λ b, (b < 128)%N) bytes →
  fold_left utf8_step bytes (out, 0%N, O) = (reverse bytes ++ out, 0%N, O).
Proof.
  intros Hb. revert out. induction Hb as [|b bytes Hlt _ IH]; intros out; [done|].
  simpl. rewrite (proj2 (N.ltb_lt b 128) Hlt), IH, reverse_cons, <- app_assoc.
  done.
Qed.

Lemma utf8_ascii s :
  Forall (λ a, (Ascii.N_of_ascii a < 128)%N) (String.list_ascii_of_string s) →
  utf8 s = Ascii.N_of_ascii <$> String.list_ascii_of_string s.
Proof.
  intros Hs. unfold utf8. rewrite utf8_fold_ascii.
  - simpl. by rewrite app_nil_r, reverse_involutive.
  - by apply Forall_fmap.
Qed.

Lemma pretty_N_char_numeral x :
  numeral_char (Ascii.N_of_ascii (pretty_N_char x)) = true.
Proof. unfold pretty_N_char. by repeat case_match. Qed.

Lemma pretty_N_go_numeral x : ∀ s,
  Forall (λ a, numeral_char (Ascii.N_of_ascii a) = true)
         (String.list_ascii_of_string s) →
  Forall (λ a, numeral_char (Ascii.N_of_ascii a) = true)
         (String.list_ascii_of_string (pretty_N_go x s)).
Proof.
  induction (N.lt_wf_0 x) as [x _ IH]. intros s Hs.
  destruct (decide (x = 0)%N) as [->|Hx]; [by rewrite pretty_N_go_0|].
  rewrite pretty_N_go_step by lia.
  apply IH; [apply N.div_lt; lia|].
  simpl. constructor; [apply pretty_N_char_numeral|done].
Qed.

Lemma pretty_Z_numeral (n : Z) :
  Forall (λ a, numeral_char (Ascii.N_of_ascii a) = true)
         (String.list_ascii_of_string (pretty n)).
Proof.
  assert (∀ p : positive,
    Forall (λ a, numeral_char (Ascii.N_of_ascii a) = true)
           (String.list_ascii_of_string (pretty p))) as Hpos.
  { intros p. unfold pretty, pretty_positive, pretty, pretty_N.
    rewrite decide_False by done. by apply pretty_N_go_numeral. }
  destruct n as [|p|p]; unfold pretty, pretty_Z.
  - by repeat constructor.
  - apply Hpos.
  - simpl. constructor; [done|apply Hpos].
Qed.

Lemma str_int_ascii n :
  str_int n = Ascii.N_of_ascii <$> String.list_ascii_of_string (pretty n).
Proof.
  apply utf8_ascii. eapply Forall_impl; [apply pretty_Z_numeral|].
  intros a Ha. unfold numeral_char in Ha.
  apply orb_true_iff in Ha as [Ha%N.eqb_eq|[_ Ha%N.leb_le]%andb_true_iff]; lia.
Qed.

Lemma str_int_numeral n : Forall (λ c, numeral_char c = true) (str_int n).
Proof. rewrite str_int_ascii. apply Forall_fmap, pretty_Z_numeral. Qed.

Lemma str_int_inj n1 n2 : str_int n1 = str_int n2 → n1 = n2.
Proof.
  rewrite !str_int_ascii. intros Heq.
  apply (inj pretty).
  rewrite <- (String.string_of_list_ascii_of_string (pretty n1)),
          <- (String.string_of_list_ascii_of_string (pretty n2)).
  f_equal. revert Heq.
  generalize (String.list_ascii_of_string (pretty n1)) as l1.
  generalize (String.list_ascii_of_string (pretty n2)) as l2.
  intros l2 l1. revert l2.
  induction l1 as [|a l1 IH]; intros [|b l2] Heq; simplify_eq/=; [done|].
  f_equal; [|by apply IH].
  rewrite <- (Ascii.ascii_N_embedding a), <- (Ascii.ascii_N_embedding b).
  by f_equal.
Qed.

(** Two lists cut at a separator that occurs in neither tail are cut at
    the same place. *)
Lemma split_at_last {A} (c : A) l1 : ∀ l2 r1 r2,
  l1 ++ c :: r1 = l2 ++ c :: r2 → c ∉ r1 → c ∉ r2 → l1 = l2 ∧ r1 = r2.
Proof.
  induction l1 as [|a l1 IH]; intros [|b l2] r1 r2 Heq Hr1 Hr2; simplify_eq/=.
  - done.
  - exfalso. apply Hr1. apply elem_of_app. right. by left.
  - exfalso. apply Hr2. apply elem_of_app. right. by left.
  - destruct (IH _ _ _ H0 Hr1 Hr2) as [-> ->]. done.
Qed.

Lemma not_in_str_int c n : numeral_char c = false → c ∉ str_int n.
Proof.
  intros Hc Hin. pose proof (str_int_numeral n) as Hn.
  rewrite Forall_forall in Hn. apply Hn in Hin. congruence.
Qed.

Lemma composite_key_shape s y q :
  mops_report.composite_key s y q = (s ++ 95%N :: str_int y) ++ 81%N :: str_int q.
Proof.
  unfold mops_report.composite_key.
  change (utf8 "_") with [95%N]. change (utf8 "Q") with [81%N].
  by rewrite <- app_assoc.
Qed.

(** X4. The composite key and the name of the cache file determine the
    combination: two combinations with the same cache file name have the
    same stock id, year and season, whatever characters the stock id
    holds. *)
Theorem composite_key_inj s1 y1 q1 s2 y2 q2 :
  mops_report.filename_of (mops_report.composite_key s1 y1 q1)
  = mops_report.filename_of (mops_report.composite_key s2 y2 q2) →
  s1 = s2 ∧ y1 = y2 ∧ q1 = q2.
Proof.
  intros Heq%filename_of_inj. revert Heq.
  rewrite !composite_key_shape. intros Heq.
  apply split_at_last in Heq as [Heq Hq]; [|by apply not_in_str_int..].
  apply split_at_last in Heq as [Hs Hy]; [|by apply not_in_str_int..].
  split; [done|]. split; by apply str_int_inj.
Qed.

Lemma composite_key_inj_witness :
  mops_report.filename_of (mops_report.composite_key (utf8 "2330_2024Q1") 2023 4)
  = mops_report.filename_of (mops_report.composite_key (utf8 "2330_2024Q1") 2023 4)
  ∧ utf8 "2330_2024Q1" = utf8 "2330_2024Q1" ∧ 2023 = 2023 ∧ 4 = 4.
Proof.
  split; [reflexivity|].
  apply (composite_key_inj (utf8 "2330_2024Q1") 2023 4 (utf8 "2330_2024Q1") 2023 4).
  reflexivity.
Defined.

(** ** Filing tables and the cache *)

Lemma length_omap_le {A B} (f : A → option B) l :
  (length (omap f l) ≤ length l)%nat.
Proof.
  induction l as [|x l IH]; [done|].
  change (omap f (x :: l)) with (match f x with Some y => y :: omap f l | None => omap f l end).
  destruct (f x); simpl; lia.
Qed.

(** X5. The tables kept for a page are exactly those among its first five
    [table] elements that convert, each with its position on the page as
    [table_index]; so there are at most five, and no more than the page
    has. *)
Theorem parse_tables_spec (tables : list raw_table) :
  (∀ t, t ∈ mops_report.parse_tables tables ↔
        ∃ i, (i < 5)%nat ∧ tables !! i = Some (Some (preview t, data t))
             ∧ table_index t = Z.of_nat i)
  ∧ (length (mops_report.parse_tables tables) ≤ 5)%nat
  ∧ (length (mops_report.parse_tables tables) ≤ length tables)%nat.
Proof.
  unfold mops_report.parse_tables.
  change (slice_to 5 tables) with (take 5 tables).
  split; [|split].
  - intros t. rewrite list_elem_of_omap. split.
    + intros (x & Hx & Hid). simpl in Hid. subst x.
      apply elem_of_lookup_imap in Hx as (i & rt & Heq & Hi).
      apply lookup_take_Some in Hi as [Hi Hlt].
      destruct rt as [[p d]|]; simplify_eq/=. by exists i.
    + intros (i & Hlt & Hi & Hidx). exists (Some t). split; [|done].
      apply elem_of_lookup_imap. exists i, (Some (preview t, data t)).
      split; [|by apply lookup_take_Some].
      destruct t as [idx p d]. simpl in *. by subst idx.
  - etrans; [apply length_omap_le|]. rewrite length_imap, length_take. lia.
  - etrans; [apply length_omap_le|]. rewrite length_imap, length_take. lia.
Qed.

Lemma for_each_nothing {A S} (l : list A) (body : A → S → M S) s w :
  (∀ x s w, body x s w = (Returned s, w)) →
  for_each l body s w = (Returned s, w).
Proof.
  intros Hbody. induction l as [|x l IH]; simpl; [done|].
  unfold bind. by rewrite Hbody.
Qed.

(** X6. With no stock id, no year or no season, [fetch_mops_report] returns
    the empty mapping and leaves the world as it was. *)
Theorem fetch_nothing_requested E stock_ids years seasons w :
  stock_ids = [] ∨ years = [] ∨ seasons = [] →
  mops_report.fetch_mops_report E stock_ids years seasons w = (Returned ∅, w).
Proof.
  intros Hempty. unfold mops_report.fetch_mops_report.
  destruct Hempty as [->| [->| ->]]; [done| |].
  - apply for_each_nothing. done.
  - apply for_each_nothing. intros s r w1.
    apply for_each_nothing. done.
Qed.

Lemma fetch_nothing_requested_witness :
  ([utf8 "2330"] = [] ∨ [2024] = [] ∨ ([] : list Z) = [])
  ∧ mops_report.fetch_mops_report offline_after_first_env [utf8 "2330"] [2024] []
      (World ∅ [])
    = (Returned ∅, World ∅ []).
Proof.
  split; [by right; right|].
  apply (fetch_nothing_requested offline_after_first_env [utf8 "2330"] [2024] []).
  by right; right.
Defined.

(** X7. When every requested combination has a cache file that can be
    read, [fetch_mops_report] returns, for exactly the requested keys, what
    the files read back as, and leaves the world as it was: no page is
    requested, whatever the state of the network. *)
Theorem fetch_all_cached E stock_ids years seasons w :
  (∀ c, c ∈ combos stock_ids years seasons →
        ∃ v, files w !! mops_report.filename_of (key_of c) = Some (Dumped v)) →
  ∃ r,
    mops_report.fetch_mops_report E stock_ids years seasons w = (Returned r, w)
    ∧ ∀ k, r !! k
           = if decide (k ∈ key_of <$> combos stock_ids years seasons)
             then Some (cached_value w k) else None.
Proof.
  intros Hfiles. eexists. rewrite fetch_flat.
  split; [by apply fetch_loop_cached|].
  intros k. by rewrite lookup_foldl_cached, lookup_empty.
Qed.

Lemma fetch_all_cached_witness :
  (∀ c, c ∈ combos [utf8 "2330"] [2024] [1] →
        ∃ v, files cached_world !! mops_report.filename_of (key_of c)
             = Some (Dumped v))
  ∧ ∃ r,
      mops_report.fetch_mops_report offline_after_first_env
        [utf8 "2330"] [2024] [1] cached_world = (Returned r, cached_world)
      ∧ ∀ k, r !! k
             = if decide (k ∈ key_of <$> combos [utf8 "2330"] [2024] [1])
               then Some (cached_value cached_world k) else None.
Proof.
  assert (∀ c, c ∈ combos [utf8 "2330"] [2024] [1] →
            ∃ v, files cached_world !! mops_report.filename_of (key_of c)
                 = Some (Dumped v))
    as Hfiles.
  { intros c Hc. apply list_elem_of_singleton in Hc as ->. by eexists. }
  split; [exact Hfiles|].
  exact (fetch_all_cached offline_after_first_env [utf8 "2330"] [2024] [1]
           cached_world Hfiles).
Defined.

(** ** More on the crawl *)

Lemma for_each_post_prefix {A S} (I : list A → S → world → Prop)
    (R : exn → world → Prop) (l : list A) (body : A → S → M S) :
  (∀ visited x s w, I visited s w → run_post (body x s w) (I (visited ++ [x])) R) →
  ∀ visited s w, I visited s w →
    run_post (for_each l body s w) (I (visited ++ l)) R.
Proof.
  intros Hbody. induction l as [|x l IH]; intros visited s w Hs; simpl.
  - by rewrite app_nil_r.
  - unfold bind. pose proof (Hbody visited x s w Hs) as Hx.
    destruct (body x s w) as [[s'|e] w']; simpl in *; [|exact Hx].
    replace (visited ++ x :: l) with ((visited ++ [x]) ++ l)
      by (by rewrite <- app_assoc).
    by apply IH.
Qed.

Lemma preserves_crawl_box (P : event → Prop) F
    `{!Reflexive F, !Transitive F} E kw b arts :
  (∀ u, P (ArticleGet u)) →
  preserves (extends P F) (news_summary.crawl_box E kw b arts).
Proof.
  intros Ha. unfold news_summary.crawl_box.
  destruct (title_tag b) as [a|]; [|by apply preserves_ret].
  destruct (date_tag b) as [d|]; [|by apply preserves_ret].
  apply preserves_bind; [done..| |].
  { unfold news_summary.getitem_href.
    destruct (a_href a); [by apply preserves_ret|by apply preserves_raise]. }
  intros l. apply preserves_bind; [done..| |intros; by apply preserves_ret].
  apply preserves_try_except; [done..| |intros; by apply preserves_ret].
  apply preserves_bind; [done..| |intros; by apply preserves_ret].
  by apply preserves_request.
Qed.

Lemma search_urls_articles evs :
  Forall is_article_request evs → search_urls evs = [].
Proof.
  induction 1 as [|ev evs Hev _ IH]; [done|].
  unfold search_urls in *. by destruct ev.
Qed.

(** X8. When the crawler returns, the search pages it requested during the
    call are exactly pages 1 to [pages] for the keyword, in order: a search
    page that fails is skipped, the pages after it are still requested. *)
Theorem crawl_requests_every_page E kw pages w arts w' :
  news_summary.crawl_etnews_articles E kw pages w = (Returned arts, w')
  ∨ mc._crawl_ettoday E kw pages w = (Returned arts, w') →
  search_urls (drop (now w) (trace w')) = search_url kw <$> range1 pages.
Proof.
  intros Hrun.
  assert (news_summary.crawl_etnews_articles E kw pages w = (Returned arts, w'))
    as Hrun' by (destruct Hrun as [H|H]; exact H).
  clear Hrun.
  pose (Inv := λ (visited : list Z) (_ : list article) (w1 : world),
          ∃ evs, trace w1 = trace w ++ evs
                 ∧ search_urls evs = search_url kw <$> visited).
  assert (run_post (news_summary.crawl_etnews_articles E kw pages w)
            (Inv ([] ++ range1 pages)) (λ _ _, True)) as Hpost.
  { unfold news_summary.crawl_etnews_articles.
    apply for_each_post_prefix.
    - intros visited page arts1 w1 (evs & Ht & Hs).
      unfold news_summary.crawl_page. cbv zeta. fold (search_url kw page).
      unfold bind at 1. unfold try_except, bind, request.
      assert (Inv (visited ++ [page]) arts1
                (World (files w1) (trace w1 ++ [SearchGet (search_url kw page)])))
        as Hnext.
      { exists (evs ++ [SearchGet (search_url kw page)]). simpl.
        rewrite Ht, <- app_assoc. split; [done|].
        unfold search_urls in *. rewrite omap_app, Hs, fmap_app. done. }
      destruct (search_get E (now w1) _) as [e|boxes]; simpl; [done|].
      pose proof (preserves_for_each is_article_request eq boxes
                    (news_summary.crawl_box E kw)
                    (λ b s, preserves_crawl_box is_article_request eq E kw b s
                              (λ _, I))
                    arts1
                    (World (files w1) (trace w1 ++ [SearchGet (search_url kw page)])))
        as (_ & evs2 & Ht2 & Hev2).
      destruct (for_each boxes _ arts1 _) as [[arts2|e] w2]; simpl in *; [|done].
      destruct Hnext as (evs1 & Ht1 & Hs1). simpl in Ht1.
      exists (evs1 ++ evs2). rewrite Ht2, Ht1, <- app_assoc. split; [done|].
      unfold search_urls in *. rewrite omap_app, Hs1.
      fold (search_urls evs2). by rewrite (search_urls_articles _ Hev2), app_nil_r.
    - exists []. by rewrite app_nil_r. }
  rewrite Hrun' in Hpost. destruct Hpost as (evs & -> & Hs).
  unfold now. by rewrite drop_app_length.
Qed.

Lemma crawl_requests_every_page_witness :
  (news_summary.crawl_etnews_articles news_env (utf8 "鴻海配息") 1 (World ∅ [])
   = (Returned sample_articles, World ∅ sample_trace)
   ∨ mc._crawl_ettoday news_env (utf8 "鴻海配息") 1 (World ∅ [])
     = (Returned sample_articles, World ∅ sample_trace))
  ∧ search_urls (drop 0 sample_trace) = search_url (utf8 "鴻海配息") <$> range1 1.
Proof.
  assert (news_summary.crawl_etnews_articles news_env (utf8 "鴻海配息") 1 (World ∅ [])
          = (Returned sample_articles, World ∅ sample_trace)) as Hrun
    by (vm_compute; reflexivity).
  split; [by left|].
  exact (crawl_requests_every_page news_env (utf8 "鴻海配息") 1 (World ∅ [])
           sample_articles (World ∅ sample_trace) (or_introl Hrun)).
Defined.

(** X9. When the crawler returns, the returned articles are, one for one
    and in order, those of the article requests issued during the call:
    each has the link requested and the keyword of the call, and its
    content is decided by the answer to its own request, the text of the
    article, "(無法取得內文)" when the page has no body element, or
    "(抓取失敗: e)" when the request failed with [e]. *)
Theorem crawl_articles_match_requests E kw pages w arts w' :
  news_summary.crawl_etnews_articles E kw pages w = (Returned arts, w')
  ∨ mc._crawl_ettoday E kw pages w = (Returned arts, w') →
  Forall2 (λ a req,
             link a = req.2 ∧ keyword a = kw
             ∧ content a = match article_get E req.1 req.2 with
                           | inl e => utf8 "(抓取失敗: " ++ str_exn e ++ utf8 ")"
                           | inr (Some text) => text
                           | inr None => utf8 "(無法取得內文)"
                           end)
          arts (article_requests (now w) (drop (now w) (trace w'))).
Proof.
  intros Hrun.
  assert (news_summary.crawl_etnews_articles E kw pages w = (Returned arts, w'))
    as Hrun' by (destruct Hrun as [H|H]; exact H).
  pose proof (crawl_post E kw pages w) as Hpost. rewrite Hrun' in Hpost.
  destruct Hpost as (_ & evs & -> & _ & Hbuilt).
  unfold now at 2. rewrite drop_app_length.
  eapply Forall2_impl; [exact Hbuilt|].
  intros a req (Hl & Hk & Hc). split; [done|]. split; [done|].
  rewrite Hc. unfold content_of. by destruct (article_get _ _ _) as [?|[?|]].
Qed.

Lemma crawl_articles_match_requests_witness :
  (news_summary.crawl_etnews_articles news_env (utf8 "鴻海配息") 1 (World ∅ [])
   = (Returned sample_articles, World ∅ sample_trace)
   ∨ mc._crawl_ettoday news_env (utf8 "鴻海配息") 1 (World ∅ [])
     = (Returned sample_articles, World ∅ sample_trace))
  ∧ Forall2 (λ a req,
               link a = req.2 ∧ keyword a = utf8 "鴻海配息"
               ∧ content a = match article_get news_env req.1 req.2 with
                             | inl e => utf8 "(抓取失敗: " ++ str_exn e ++ utf8 ")"
                             | inr (Some text) => text
                             | inr None => utf8 "(無法取得內文)"
                             end)
            sample_articles (article_requests 0 (drop 0 sample_trace)).
Proof.
  assert (news_summary.crawl_etnews_articles news_env (utf8 "鴻海配息") 1 (World ∅ [])
          = (Returned sample_articles, World ∅ sample_trace)) as Hrun
    by (vm_compute; reflexivity).
  split; [by left|].
  exact (crawl_articles_match_requests news_env (utf8 "鴻海配息") 1 (World ∅ [])
           sample_articles (World ∅ sample_trace) (or_introl Hrun)).
Defined.

Lemma lstrip_head s c : head (lstrip s) = Some c → isspace c = false.
Proof.
  induction s as [|a s IH]; simpl; [done|].
  destruct (isspace a) eqn:Ha; [done|]. simpl. by intros [= <-].
Qed.

Lemma lstrip_suffix s : ∃ p, s = p ++ lstrip s.
Proof.
  induction s as [|a s [p Hp]]; simpl; [by exists []|].
  destruct (isspace a); [|by exists []].
  exists (a :: p). simpl. by f_equal.
Qed.

Lemma strip_stripped s : stripped (strip s).
Proof.
  unfold strip. split.
  - apply lstrip_head.
  - intros c Hlast.
    destruct (lstrip_suffix (rstrip s)) as [p Hp].
    assert (last (rstrip s) = Some c) as Hr.
    { rewrite Hp, last_app. by rewrite Hlast. }
    unfold rstrip in Hr. rewrite last_reverse in Hr.
    by apply lstrip_head in Hr.
Qed.

(** X10. Every article the crawler returns has a title without white space
    at either end. *)
Theorem crawl_titles_stripped E kw pages w arts w' :
  news_summary.crawl_etnews_articles E kw pages w = (Returned arts, w')
  ∨ mc._crawl_ettoday E kw pages w = (Returned arts, w') →
  Forall (λ a, stripped (title a)) arts.
Proof.
  intros Hrun.
  assert (news_summary.crawl_etnews_articles E kw pages w = (Returned arts, w'))
    as Hrun' by (destruct Hrun as [H|H]; exact H).
  assert (run_post (news_summary.crawl_etnews_articles E kw pages w)
            (λ arts _, Forall (λ a, stripped (title a)) arts) (λ _ _, True))
    as Hpost.
  { unfold news_summary.crawl_etnews_articles.
    apply for_each_post; [|done]. intros page arts1 w1 _ Harts1.
    unfold news_summary.crawl_page. cbv zeta.
    unfold bind at 1. unfold try_except, bind, request.
    destruct (search_get E (now w1) _) as [e|boxes]; simpl; [done|].
    apply for_each_post; [|done]. intros b arts2 w2 _ Harts2.
    unfold news_summary.crawl_box.
    destruct (title_tag b) as [a|]; [|done].
    destruct (date_tag b) as [d|]; [|done].
    unfold bind, news_summary.getitem_href.
    destruct (a_href a) as [l|]; simpl; [|done].
    unfold try_except, bind, request.
    destruct (article_get E _ l); simpl;
      (apply Forall_app; split; [done|]; constructor; [|done]);
      apply strip_stripped. }
  by rewrite Hrun' in Hpost.
Qed.

Lemma crawl_titles_stripped_witness :
  (news_summary.crawl_etnews_articles news_env (utf8 "鴻海配息") 1 (World ∅ [])
   = (Returned sample_articles, World ∅ sample_trace)
   ∨ mc._crawl_ettoday news_env (utf8 "鴻海配息") 1 (World ∅ [])
     = (Returned sample_articles, World ∅ sample_trace))
  ∧ Forall (λ a, stripped (title a)) sample_articles.
Proof.
  assert (news_summary.crawl_etnews_articles news_env (utf8 "鴻海配息") 1 (World ∅ [])
          = (Returned sample_articles, World ∅ sample_trace)) as Hrun
    by (vm_compute; reflexivity).
  split; [by left|].
  exact (crawl_titles_stripped news_env (utf8 "鴻海配息") 1 (World ∅ [])
           sample_articles (World ∅ sample_trace) (or_introl Hrun)).
Defined.

(** ** More on the pipeline *)

Lemma needs_parse stock_id company :
  stock_id = [] ∨ company = [] →
  negb (truthy (JStr stock_id)) || negb (truthy (JStr company)) = true.
Proof. intros [-> | ->]; [done|]. apply orb_true_r. Qed.

(** X11. When the model call of the parse step raises an exception [e]
    (other than a JSON decoding error), [mo.py] does not raise:
    [parse_question] returns an error dictionary without "raw",
    [etnews_finance_summary] returns the error dictionary with an empty
    "raw", [analyze_financial_data] (called without stock id or without
    company) returns the failure message, and nothing else is requested. *)
Theorem mo_reports_parse_call_failure
    E q stock_id company topic pages limit w e :
  stock_id = [] ∨ company = [] →
  chat_create E (now w) (parse_prompt q) = inl e →
  (∀ m, e ≠ JSONDecodeError m) →
  mo.parse_question E q w
  = (Returned (JObj [(utf8 "error", JStr (utf8 "解析失敗：" ++ str_exn e))]),
     asked w (parse_prompt q))
  ∧ mo.etnews_finance_summary E q pages limit w
    = (Returned (ErrorDict (utf8 "問題解析失敗：" ++ utf8 "解析失敗：" ++ str_exn e)
                           (JStr [])),
       asked w (parse_prompt q))
  ∧ mo.analyze_financial_data E q stock_id company topic pages w
    = (Returned (utf8 "⚠️ 問題解析失敗：" ++ utf8 "解析失敗：" ++ str_exn e),
       asked w (parse_prompt q)).
Proof.
  intros Hempty Hchat Hne.
  assert (mo.parse_question E q w
          = (Returned (JObj [(utf8 "error", JStr (utf8 "解析失敗：" ++ str_exn e))]),
             asked w (parse_prompt q))) as Hparse.
  { unfold mo.parse_question, bind, try_except, bind, request, ret. cbv zeta.
    rewrite Hchat. cbv beta iota.
    destruct e; try reflexivity. by destruct (Hne msg). }
  split; [done|]. split.
  - unfold mo.etnews_finance_summary. unfold bind at 1. rewrite Hparse.
    reflexivity.
  - unfold mo.analyze_financial_data. rewrite (needs_parse _ _ Hempty).
    unfold bind at 1. rewrite Hparse. reflexivity.
Qed.

Lemma mo_reports_parse_call_failure_witness :
  let e := Error (utf8 "Connection error.") in
  let w1 := asked (World ∅ []) (parse_prompt question_1) in
  mo.parse_question news_env question_1 (World ∅ [])
  = (Returned (JObj [(utf8 "error", JStr (utf8 "解析失敗：" ++ str_exn e))]), w1)
  ∧ mo.etnews_finance_summary news_env question_1 1 5 (World ∅ [])
    = (Returned (ErrorDict (utf8 "問題解析失敗：" ++ utf8 "解析失敗：" ++ str_exn e)
                           (JStr [])), w1)
  ∧ mo.analyze_financial_data news_env question_1 [] [] [] 1 (World ∅ [])
    = (Returned (utf8 "⚠️ 問題解析失敗：" ++ utf8 "解析失敗：" ++ str_exn e), w1).
Proof.
  intros e w1.
  apply (mo_reports_parse_call_failure news_env question_1 [] [] [] 1 5
           (World ∅ []) e).
  - by left.
  - reflexivity.
  - intros m. discriminate.
Defined.

(** X12. In [mc.py] the model call of the parse step stands outside the
    [try]: when it raises, the exception leaves [parse_question] and
    [etnews_finance_summary], and nothing else is requested. *)
Theorem mc_parse_call_failure_escapes E q pages limit w e :
  chat_create E (now w) (parse_prompt q) = inl e →
  mc.parse_question E q w = (Raised e, asked w (parse_prompt q))
  ∧ mc.etnews_finance_summary E q pages limit w
    = (Raised e, asked w (parse_prompt q)).
Proof.
  intros Hchat.
  assert (mc.parse_question E q w = (Raised e, asked w (parse_prompt q)))
    as Hparse.
  { unfold mc.parse_question, bind, request. cbv zeta. by rewrite Hchat. }
  split; [done|].
  unfold mc.etnews_finance_summary. unfold bind at 1. by rewrite Hparse.
Qed.

Lemma mc_parse_call_failure_escapes_witness :
  mc.parse_question news_env question_1 (World ∅ [])
  = (Raised (Error (utf8 "Connection error.")),
     asked (World ∅ []) (parse_prompt question_1))
  ∧ mc.etnews_finance_summary news_env question_1 1 5 (World ∅ [])
    = (Raised (Error (utf8 "Connection error.")),
       asked (World ∅ []) (parse_prompt question_1)).
Proof.
  apply (mc_parse_call_failure_escapes news_env question_1 1 5 (World ∅ [])).
  reflexivity.
Defined.

(** X13. A reply that is JSON but not an object (null, a number, a string,
    an array) is not reported as a parse failure: the first use of the
    result raises a [TypeError] or an [AttributeError], which leaves
    [etnews_finance_summary] (both files) and [analyze_financial_data]
    after the model call and before any page is requested. *)
Theorem non_object_reply_raises
    E q stock_id company topic pages limit w reply doc :
  stock_id = [] ∨ company = [] →
  chat_create E (now w) (parse_prompt q) = inr reply →
  json_loads E (strip reply) = inr doc →
  is_object doc = false →
  ∃ e, type_or_attribute_error e
       ∧ mc.etnews_finance_summary E q pages limit w
         = (Raised e, asked w (parse_prompt q))
       ∧ mo.etnews_finance_summary E q pages limit w
         = (Raised e, asked w (parse_prompt q))
       ∧ mo.analyze_financial_data E q stock_id company topic pages w
         = (Raised e, asked w (parse_prompt q)).
Proof.
  intros Hempty Hchat Hjson Hobj.
  pose proof (mc_parse_json _ _ _ _ _ Hchat Hjson) as Hmc.
  pose proof (mo_parse_json _ _ _ _ _ Hchat Hjson) as Hmo.
  assert (∀ e,
    (∀ w1, py_in (utf8 "error") doc w1 = (Raised e, w1))
    ∨ (∀ w1, py_in (utf8 "error") doc w1 = (Returned true, w1))
      ∧ (∀ w1, py_getitem doc (utf8 "error") w1 = (Raised e, w1))
    ∨ (∀ w1, py_in (utf8 "error") doc w1 = (Returned false, w1))
      ∧ (∀ k d w1, py_get doc k d w1 = (Raised e, w1)) →
    mc.etnews_finance_summary E q pages limit w
    = (Raised e, asked w (parse_prompt q))
    ∧ mo.etnews_finance_summary E q pages limit w
      = (Raised e, asked w (parse_prompt q))
    ∧ mo.analyze_financial_data E q stock_id company topic pages w
      = (Raised e, asked w (parse_prompt q))) as Hrun.
  { intros e Hcases.
    unfold mc.etnews_finance_summary, mo.etnews_finance_summary,
      mo.analyze_financial_data.
    rewrite (needs_parse _ _ Hempty). unfold bind. rewrite Hmc, Hmo.
    destruct Hcases as [Hin|[[Hin Hitem]|[Hin Hget]]];
      rewrite ?Hin, ?Hitem, ?Hget; done. }
  destruct doc as [| b | n | s | items | fields]; try discriminate.
  - eexists. split; [|apply Hrun; left; reflexivity]. exact I.
  - eexists. split; [|apply Hrun; left; reflexivity]. exact I.
  - eexists. split; [|apply Hrun; left; reflexivity]. exact I.
  - destruct (str_contains (utf8 "error") s) eqn:Hb.
    + eexists. split; [|apply Hrun; right; left; split; intros; simpl;
                         unfold ret; rewrite ?Hb; reflexivity]. exact I.
    + eexists. split; [|apply Hrun; right; right; split; intros; simpl;
                         unfold ret; rewrite ?Hb; reflexivity]. exact I.
  - destruct (existsb (λ x, match x with
                            | JStr s => pystr_eqb s (utf8 "error")
                            | _ => false
                            end) items) eqn:Hb.
    + eexists. split; [|apply Hrun; right; left; split; intros; simpl;
                         unfold ret; rewrite ?Hb; reflexivity]. exact I.
    + eexists. split; [|apply Hrun; right; right; split; intros; simpl;
                         unfold ret; rewrite ?Hb; reflexivity]. exact I.
Qed.

Lemma non_object_reply_raises_witness :
  ∃ e, type_or_attribute_error e
       ∧ mc.etnews_finance_summary array_reply_env question_1 1 5 (World ∅ [])
         = (Raised e, asked (World ∅ []) (parse_prompt question_1))
       ∧ mo.etnews_finance_summary array_reply_env question_1 1 5 (World ∅ [])
         = (Raised e, asked (World ∅ []) (parse_prompt question_1))
       ∧ mo.analyze_financial_data array_reply_env question_1 [] [] [] 1 (World ∅ [])
         = (Raised e, asked (World ∅ []) (parse_prompt question_1)).
Proof.
  apply (non_object_reply_raises array_reply_env question_1 [] [] [] 1 5
           (World ∅ []) (utf8 "[]") (JArr [])).
  - by left.
  - reflexivity.
  - vm_compute. reflexivity.
  - reflexivity.
Defined.

(** X14. When the intent parses but company and topic together give an
    empty keyword (both empty, or white space only),
    [etnews_finance_summary] (both files) returns "⚠️ 無法組出有效關鍵字"
    right after the model call: no page is requested. *)
Theorem empty_keyword_stops E q pages limit w reply fields :
  chat_create E (now w) (parse_prompt q) = inr reply →
  json_loads E (strip reply) = inr (JObj fields) →
  dict_lookup (utf8 "error") fields = None →
  keyword_of E fields = [] →
  mc.etnews_finance_summary E q pages limit w
  = (Returned (Text (utf8 "⚠️ 無法組出有效關鍵字")), asked w (parse_prompt q))
  ∧ mo.etnews_finance_summary E q pages limit w
    = (Returned (Text (utf8 "⚠️ 無法組出有效關鍵字")), asked w (parse_prompt q)).
Proof.
  intros Hchat Hjson Herr Hkw.
  rewrite (mc_summary_after_parse E q pages limit w fields _
             (mc_parse_json _ _ _ _ _ Hchat Hjson) Herr).
  rewrite (mo_summary_after_parse E q pages limit w fields _
             (mo_parse_json _ _ _ _ _ Hchat Hjson) Herr).
  by rewrite Hkw.
Qed.

Lemma empty_keyword_stops_witness :
  let E := intent_env (utf8 " ") (utf8 "2317") [] in
  mc.etnews_finance_summary E question_1 1 5 (World ∅ [])
  = (Returned (Text (utf8 "⚠️ 無法組出有效關鍵字")),
     asked (World ∅ []) (parse_prompt question_1))
  ∧ mo.etnews_finance_summary E question_1 1 5 (World ∅ [])
    = (Returned (Text (utf8 "⚠️ 無法組出有效關鍵字")),
       asked (World ∅ []) (parse_prompt question_1)).
Proof.
  intros E.
  apply (empty_keyword_stops E question_1 1 5 (World ∅ [])
           (intent_text (utf8 " ") (utf8 "2317") [])
           [(utf8 "company", JStr (utf8 " ")); (utf8 "stock_id", JStr (utf8 "2317"));
            (utf8 "topic", JStr [])]).
  - reflexivity.
  - vm_compute. reflexivity.
  - vm_compute. reflexivity.
  - vm_compute. reflexivity.
Defined.

(** X15. Called with a stock id and a company, [analyze_financial_data]
    raises nothing but the [KeyError] of a search result without [href]:
    an exception of the filing retrieval, also one that leaves
    [fetch_mops_report], and an exception of the model call both come back
    as text. *)
Theorem analyze_absorbs_failures E q stock_id company topic pages w :
  stock_id ≠ [] → company ≠ [] →
  run_post (mo.analyze_financial_data E q stock_id company topic pages w)
    (λ _ _, True) (λ e _, e = KeyError (utf8 "href")).
Proof.
  intros Hs Hc. unfold mo.analyze_financial_data.
  assert (negb (truthy (JStr stock_id)) || negb (truthy (JStr company)) = false)
    as ->.
  { simpl. unfold pystr_eqb. by rewrite !bool_decide_eq_false_2. }
  apply mo_analyze_gathered_returns.
Qed.

Lemma analyze_absorbs_failures_witness :
  utf8 "2330" ≠ [] ∧ utf8 "台積電" ≠ []
  ∧ run_post (mo.analyze_financial_data offline_after_first_env question_1
                (utf8 "2330") (utf8 "台積電") (utf8 "財報") 1 (World ∅ []))
      (λ _ _, True) (λ e _, e = KeyError (utf8 "href")).
Proof.
  assert (utf8 "2330" ≠ []) as H1 by (vm_compute; discriminate).
  assert (utf8 "台積電" ≠ []) as H2 by (vm_compute; discriminate).
  split; [exact H1|]. split; [exact H2|].
  exact (analyze_absorbs_failures offline_after_first_env question_1
           (utf8 "2330") (utf8 "台積電") (utf8 "財報") 1 (World ∅ []) H1 H2).
Defined.

Lemma preserves_analyze_answer (P : event → Prop) F
    `{!Reflexive F, !Transitive F} E q stock_id company news reports :
  (∀ p, P (ChatCreate p)) →
  preserves (extends P F) (mo.analyze_answer E q stock_id company news reports).
Proof.
  intros Hc. unfold mo.analyze_answer. cbv zeta.
  apply preserves_try_except; [done..| |intros; by apply preserves_ret].
  apply preserves_bind; [done..| |intros; by apply preserves_ret].
  by apply preserves_request.
Qed.

Lemma preserves_analyze_without_stock_id E q stock_id company topic pages :
  truthy stock_id = false →
  preserves (extends no_filing_request eq)
    (mo.analyze_gathered E q stock_id company topic pages).
Proof.
  intros Hfalsy. unfold mo.analyze_gathered. cbv zeta. rewrite Hfalsy.
  cbv beta iota.
  apply preserves_bind; [apply _..| |].
  { destruct (strip _) as [|c kw]; [by apply preserves_ret|].
    by apply (preserves_crawl no_filing_request eq). }
  intros news.
  apply preserves_bind; [apply _..|apply (preserves_ret no_filing_request eq)|].
  intros reports. apply preserves_analyze_answer; [apply _..|done].
Qed.

(** X16. When the parsed intent has no stock id (absent, empty, null or 0),
    [analyze_financial_data] requests no filing page and leaves the cache
    files as they were, whether it returns or raises. *)
Theorem no_stock_id_no_filing_request
    E q stock_id company topic pages w reply fields :
  stock_id = [] ∨ company = [] →
  chat_create E (now w) (parse_prompt q) = inr reply →
  json_loads E (strip reply) = inr (JObj fields) →
  dict_lookup (utf8 "error") fields = None →
  truthy (default (JStr []) (dict_lookup (utf8 "stock_id") fields)) = false →
  extends no_filing_request eq w
    (mo.analyze_financial_data E q stock_id company topic pages w).2.
Proof.
  intros Hempty Hchat Hjson Herr Hfalsy.
  unfold mo.analyze_financial_data. rewrite (needs_parse _ _ Hempty).
  unfold bind at 1. rewrite (mo_parse_json _ _ _ _ _ Hchat Hjson).
  unfold bind at 1. unfold py_in, ret at 1.
  rewrite (dict_lookup_none _ _ Herr).
  unfold bind, py_get, ret.
  apply (extends_trans _ _ _ (asked w (parse_prompt q))).
  - split; [done|]. exists [ChatCreate (parse_prompt q)]. split; [done|].
    by repeat constructor.
  - by apply preserves_analyze_without_stock_id.
Qed.

Lemma no_stock_id_no_filing_request_witness :
  let E := intent_env (utf8 "鴻海") [] (utf8 "配息") in
  extends no_filing_request eq (World ∅ [])
    (mo.analyze_financial_data E question_1 [] [] [] 1 (World ∅ [])).2.
Proof.
  intros E.
  apply (no_stock_id_no_filing_request E question_1 [] [] [] 1 (World ∅ [])
           (intent_text (utf8 "鴻海") [] (utf8 "配息"))
           [(utf8 "company", JStr (utf8 "鴻海")); (utf8 "stock_id", JStr []);
            (utf8 "topic", JStr (utf8 "配息"))]).
  - by left.
  - reflexivity.
  - vm_compute. reflexivity.
  - vm_compute. reflexivity.
  - reflexivity.
Defined.

Lemma mo_synthesis_failure_is_reported_witness :
  mo.etnews_finance_summary model_down_env question_1 1 5 (World ∅ [])
  = (Returned (Text (utf8 "❌ GPT 分析失敗：" ++ str_exn (Error (utf8 "Connection error.")))),
     asked model_down_crawled (mo.summary_prompt question_1 model_down_articles 5)).
Proof.
  apply (mo_synthesis_failure_is_reported model_down_env question_1 1 5
           (World ∅ [])
           [(utf8 "company", JStr (utf8 "鴻海")); (utf8 "stock_id", JStr (utf8 "2317"));
            (utf8 "topic", JStr (utf8 "配息"))]
           (asked (World ∅ []) (parse_prompt question_1))
           model_down_articles model_down_crawled).
  - vm_compute. reflexivity.
  - vm_compute. reflexivity.
  - vm_compute. discriminate.
  - vm_compute. reflexivity.
  - discriminate.
  - vm_compute. reflexivity.
Defined.

(** X17. Where [etnews_finance_summary] of [mc.py] returns, on a reply that
    is JSON, [etnews_finance_summary] of [mo.py] returns the same result in
    the same world: the two copies differ only in what they do with a
    failure. *)
Theorem mo_summary_agrees_with_mc E q pages limit w reply doc r w' :
  chat_create E (now w) (parse_prompt q) = inr reply →
  json_loads E (strip reply) = inr doc →
  mc.etnews_finance_summary E q pages limit w = (Returned r, w') →
  mo.etnews_finance_summary E q pages limit w = (Returned r, w').
Proof.
  intros Hchat Hjson Hmc.
  unfold mc.etnews_finance_summary in Hmc. unfold mo.etnews_finance_summary.
  unfold bind at 1 in Hmc. unfold bind at 1.
  rewrite (mc_parse_json _ _ _ _ _ Hchat Hjson) in Hmc.
  rewrite (mo_parse_json _ _ _ _ _ Hchat Hjson).
  unfold bind at 1 in Hmc. unfold bind at 1.
  destruct (py_in (utf8 "error") doc _) as [[[|]|e] w1]; [done| |done].
  unfold bind at 1 in Hmc. unfold bind at 1.
  destruct (py_get doc (utf8 "company") _ w1) as [[company|e] w2]; [|done].
  unfold bind at 1 in Hmc. unfold bind at 1.
  destruct (py_get doc (utf8 "topic") _ w2) as [[topic|e] w3]; [|done].
  cbv zeta in Hmc. cbv zeta.
  destruct (strip (py_str E company ++ py_str E topic)) as [|c kw]; [done|].
  unfold bind at 1 in Hmc. unfold bind at 1.
  change (mc._crawl_ettoday E (c :: kw) pages w3)
    with (news_summary.crawl_etnews_articles E (c :: kw) pages w3) in Hmc.
  destruct (news_summary.crawl_etnews_articles E (c :: kw) pages w3)
    as [[[|a arts]|e] w4]; [done| |done].
  cbv zeta.
  change (mo.summary_prompt q (a :: arts) limit)
    with (mc.answer_prompt q (slice_to limit (a :: arts))).
  unfold mc._gpt_answer, bind, request, ret in Hmc. cbv zeta in Hmc.
  unfold try_except, bind, request, ret.
  by destruct (chat_create E (now w4) _).
Qed.

Lemma mo_summary_agrees_with_mc_witness :
  let E := intent_env (utf8 "鴻海") (utf8 "2317") (utf8 "配息") in
  mo.etnews_finance_summary E question_1 1 5 (World ∅ [])
  = (Returned (Text advisory),
     World ∅ [ChatCreate (parse_prompt question_1);
              SearchGet (utf8 "https://www.ettoday.net/news_search/doSearch.php?keywords=鴻海配息&page=1")]).
Proof.
  intros E.
  apply (mo_summary_agrees_with_mc E question_1 1 5 (World ∅ [])
           (intent_text (utf8 "鴻海") (utf8 "2317") (utf8 "配息"))
           (intent_doc (utf8 "鴻海") (utf8 "2317") (utf8 "配息"))).
  - reflexivity.
  - vm_compute. reflexivity.
  - vm_compute. reflexivity.
Defined.

Lemma fetch_loop_requests E cs : ∀ r w,
  ∃ evs, trace (for_each cs (fetch_combo E) r w).2 = trace w ++ evs
         ∧ (length evs ≤ length cs)%nat.
Proof.
  induction cs as [|c cs IH]; intros r w; simpl.
  - exists []. by rewrite app_nil_r.
  - unfold bind. unfold fetch_combo at 1. rewrite fetch_one_run. cbv zeta.
    destruct (files w !! _) as [[v|e]|].
    { destruct (IH (<[mops_report.composite_key c.1.1 c.1.2 c.2
                      := json_reload v]> r) w) as (evs & Ht & Hlen).
      exists evs. split; [done|]. lia. }
    { exists []. simpl. rewrite app_nil_r. split; [done|lia]. }
    assert (∀ r1 f,
      ∃ evs,
        trace (for_each cs (fetch_combo E) r1
                 (World f (trace w ++ [DriverGet
                    (mops_report.report_url c.1.1 c.1.2 c.2)]))).2
        = trace w ++ evs
        ∧ (length evs ≤ S (length cs))%nat) as Hnext.
    { intros r1 f. destruct (IH r1 (World f (trace w ++ [DriverGet
        (mops_report.report_url c.1.1 c.1.2 c.2)]))) as (evs & Ht & Hlen).
      eexists (_ :: evs). rewrite Ht. simpl. rewrite <- app_assoc. simpl.
      split; [done|lia]. }
    destruct (driver_get E (now w) _) as [e|[e|ts]];
      [eexists [_]; simpl; split; [done|lia] | apply Hnext |].
    destruct (open_write E _ _) as [e|]; [apply Hnext|].
    destruct (dump_error E _) as [[e e_read]|]; apply Hnext.
Qed.

Lemma length_bind_const {A B} (f : A → list B) n (l : list A) :
  (∀ x, length (f x) = n) → length (l ≫= f) = (length l * n)%nat.
Proof.
  intros Hf. induction l as [|x l IH]; [done|].
  rewrite bind_cons, length_app, IH, Hf. simpl. lia.
Qed.

Lemma length_combos stock_ids years seasons :
  length (combos stock_ids years seasons)
  = (length stock_ids * length years * length seasons)%nat.
Proof.
  unfold combos.
  rewrite (length_bind_const _ (length years * length seasons)); [lia|].
  intros s. apply length_bind_const.
  intros y. rewrite (length_bind_const _ 1); [lia|done].
Qed.

(** X18. [fetch_mops_report] requests at most one page per requested
    combination, whether it returns or raises. *)
Theorem fetch_requests_bounded E stock_ids years seasons w :
  ∃ evs,
    trace (mops_report.fetch_mops_report E stock_ids years seasons w).2
    = trace w ++ evs
    ∧ (length evs ≤ length stock_ids * length years * length seasons)%nat.
Proof.
  rewrite fetch_flat, <- length_combos.
  apply fetch_loop_requests.
Qed.

(** X19. Failed requests never make the crawler raise: the only exception
    that leaves it is the [KeyError] of a search result whose anchor has
    no [href]. *)
Theorem crawl_raises_only_keyerror E kw pages w :
  run_post (news_summary.crawl_etnews_articles E kw pages w)
    (λ _ _, True) (λ e _, e = KeyError (utf8 "href"))
  ∧ run_post (mc._crawl_ettoday E kw pages w)
      (λ _ _, True) (λ e _, e = KeyError (utf8 "href")).
Proof.
  assert (run_post (news_summary.crawl_etnews_articles E kw pages w)
            (λ _ _, True) (λ e _, e = KeyError (utf8 "href"))) as Hrun.
  { pose proof (crawl_post E kw pages w) as Hpost.
    by destruct (news_summary.crawl_etnews_articles E kw pages w) as [[?|?] ?]. }
  split; exact Hrun.
Qed.

Lemma crawl_returns_witness :
  (∀ t url boxes b a,
     search_get news_env t url = inr boxes → b ∈ boxes → title_tag b = Some a →
     is_Some (a_href a))
  ∧ ∃ arts w',
      news_summary.crawl_etnews_articles news_env (utf8 "鴻海配息") 2 (World ∅ [])
      = (Returned arts, w').
Proof.
  assert (∀ t url boxes b a,
     search_get news_env t url = inr boxes → b ∈ boxes → title_tag b = Some a →
     is_Some (a_href a)) as Hhref.
  { intros t url boxes b a [= <-] Hb Ha.
    unfold sample_boxes in Hb.
    repeat (apply elem_of_cons in Hb as [->|Hb]); simpl in Ha;
      [injection Ha as <-; by eexists..|by apply elem_of_nil in Hb]. }
  split; [exact Hhref|].
  exact (crawl_returns news_env (utf8 "鴻海配息") 2 (World ∅ []) Hhref).
Defined.

Lemma fetch_complete_without_driver_error_witness :
  (∀ t url e, driver_get filings_env t url ≠ inl e)
  ∧ (∀ tabs, dump_error filings_env tabs = None)
  ∧ ∃ r w1,
      mops_report.fetch_mops_report filings_env
        [utf8 "2330"; utf8 "2317"] [2024; 2023] [1; 4] (World ∅ [])
      = (Returned r, w1)
      ∧ ∀ k, is_Some (r !! k)
             ↔ k ∈ key_of <$> combos [utf8 "2330"; utf8 "2317"] [2024; 2023] [1; 4].
Proof.
  assert (∀ t url e, driver_get filings_env t url ≠ inl e) as Hget
    by (intros t url e; discriminate).
  assert (∀ tabs, dump_error filings_env tabs = None) as Hdump by done.
  assert (∀ (c : pystr * Z * Z) e,
            c ∈ combos [utf8 "2330"; utf8 "2317"] [2024; 2023] [1; 4] →
            files (World ∅ []) !! mops_report.filename_of (key_of c)
            ≠ Some (Unreadable e)) as Hfiles
    by (intros c e _; simpl; by rewrite lookup_empty).
  split; [exact Hget|]. split; [exact Hdump|].
  exact (fetch_complete_without_driver_error filings_env
           [utf8 "2330"; utf8 "2317"] [2024; 2023] [1; 4] (World ∅ []) Hget
           Hdump Hfiles).
Defined.

Lemma preserves_analyze_gathered E q stock_id company topic pages :
  preserves (extends any_request (⊆))
    (mo.analyze_gathered E q stock_id company topic pages).
Proof.
  unfold mo.analyze_gathered. cbv zeta.
  apply preserves_bind; [apply _..| |].
  { destruct (strip _) as [|c kw]; [apply preserves_ret; apply _|].
    apply preserves_crawl; [apply _..|done|done]. }
  intros news. apply preserves_bind; [apply _..| |].
  { destruct (truthy stock_id); [|apply preserves_ret; apply _].
    apply preserves_try_except; [apply _..| |intros; apply preserves_ret; apply _].
    apply preserves_bind; [apply _..| |intros; apply preserves_ret; apply _].
    intros w. eapply extends_mono; [|apply preserves_fetch]. done. }
  intros reports. apply preserves_analyze_answer; [apply _..|done].
Qed.

(** X20. Whether it returns or raises, [analyze_financial_data] leaves
    every cache file there was before the call in place with the same
    content. *)
Theorem analyze_keeps_cache_files E q stock_id company topic pages w :
  extends any_request (⊆) w
    (mo.analyze_financial_data E q stock_id company topic pages w).2.
Proof.
  revert w. change (preserves (extends any_request (⊆))
                      (mo.analyze_financial_data E q stock_id company topic pages)).
  unfold mo.analyze_financial_data.
  destruct (negb _ || negb _); [|apply preserves_analyze_gathered].
  apply preserves_bind;
    [apply _..|apply preserves_mo_parse; [apply _..|done]|]. intros parsed.
  apply preserves_bind; [apply _..|apply preserves_py_in; apply _|]. intros [|].
  - apply preserves_bind; [apply _..|apply preserves_py_getitem; apply _|].
    intros; apply preserves_ret; apply _.
  - apply preserves_bind; [apply _..|apply preserves_py_get; apply _|]. intros s.
    apply preserves_bind; [apply _..|apply preserves_py_get; apply _|]. intros c.
    apply preserves_bind; [apply _..|apply preserves_py_get; apply _|]. intros t.
    apply preserves_analyze_gathered.
Qed.

(** ** The cache files, read and written *)

Lemma fetch_combo_keeps_files E c r w :
  files w ⊆ files (fetch_combo E c r w).2.
Proof. exact (proj1 (preserves_fetch_one E c.1.1 c.1.2 c.2 r w)). Qed.

Lemma fetch_loop_unreadable E cs : ∀ r w c e,
  c ∈ cs →
  files w !! mops_report.filename_of (key_of c) = Some (Unreadable e) →
  ∃ e' w', for_each cs (fetch_combo E) r w = (Raised e', w').
Proof.
  induction cs as [|c0 cs IH]; intros r w c e Hc Hfile.
  - by apply elem_of_nil in Hc.
  - cbn [for_each]. unfold bind.
    pose proof (fetch_combo_keeps_files E c0 r w) as Hkeep.
    destruct (fetch_combo E c0 r w) as [[r1|e1] w1] eqn:Hrun;
      [|by eexists _, _].
    apply elem_of_cons in Hc as [->|Hc].
    + unfold fetch_combo in Hrun.
      rewrite (unreadable_cache_file_raises _ _ _ _ _ _ _ Hfile) in Hrun.
      discriminate.
    + apply (IH r1 w1 c e Hc). simpl in Hkeep.
      by eapply lookup_weaken.
Qed.

(** X24. A cache file that cannot be read (empty, cut short, not JSON) is
    read before the [try]: when a requested combination has such a file,
    [fetch_mops_report] raises and returns no mapping. *)
Theorem unreadable_cache_file_stops_call E stock_ids years seasons w c e :
  c ∈ combos stock_ids years seasons →
  files w !! mops_report.filename_of (key_of c) = Some (Unreadable e) →
  ∃ e' w1,
    mops_report.fetch_mops_report E stock_ids years seasons w = (Raised e', w1).
Proof.
  intros Hc Hfile. rewrite fetch_flat. by eapply fetch_loop_unreadable.
Qed.

Lemma unreadable_cache_file_stops_call_witness :
  ∃ e' w1,
    mops_report.fetch_mops_report filings_env
      [utf8 "2317"; utf8 "2330"] [2024] [1]
      (World {[utf8 "2330_2024Q1.json" := Unreadable cut_short_error]} [])
    = (Raised e', w1).
Proof.
  apply (unreadable_cache_file_stops_call filings_env
           [utf8 "2317"; utf8 "2330"] [2024] [1]
           (World {[utf8 "2330_2024Q1.json" := Unreadable cut_short_error]} [])
           (utf8 "2330", 2024, 1) cut_short_error).
  - vm_compute. right. left.
  - vm_compute. reflexivity.
Defined.

(** X25. When the page has loaded and the cache file cannot be written
    ([open] raises, or [json.dump] raises half way), the entry of the key is
    [None], the loop goes on, and the file of the key holds no complete
    dump: there is none after [open] raised and a cut-short one after
    [json.dump] raised. No other file is touched. *)
Theorem write_failure_gives_none E s y q r w ts :
  let key := mops_report.composite_key s y q in
  let filename := mops_report.filename_of key in
  let url := mops_report.report_url s y q in
  files w !! filename = None →
  driver_get E (now w) url = inr (Loaded ts) →
  is_Some (open_write E (S (now w)) filename)
  ∨ is_Some (dump_error E (mops_report.parse_tables ts)) →
  ∃ w1,
    mops_report.fetch_one E s y q r w = (Returned (<[key := None]> r), w1)
    ∧ trace w1 = trace w ++ [DriverGet url]
    ∧ (∀ v, files w1 !! filename ≠ Some (Dumped v))
    ∧ (is_Some (open_write E (S (now w)) filename) → files w1 = files w)
    ∧ ∀ f, f ≠ filename → files w1 !! f = files w !! f.
Proof.
  intros key filename url Hfile Hget Hfail.
  rewrite fetch_one_run. cbv zeta. fold key filename url.
  rewrite Hfile, Hget.
  replace (now (World (files w) (trace w ++ [DriverGet url]))) with (S (now w))
    by (unfold now; simpl; rewrite length_app; simpl; lia).
  destruct (open_write E (S (now w)) filename) as [e|] eqn:Hopen.
  - eexists. split; [done|]. simpl. split; [done|].
    split; [intros v; by rewrite Hfile|]. done.
  - destruct Hfail as [[? [=]]|[[e e_read] Hdump]]. rewrite Hdump.
    eexists. split; [done|]. simpl. split; [done|].
    split; [intros v; by rewrite lookup_insert_eq|].
    split; [by intros [? [=]]|].
    intros f Hf. by apply lookup_insert_ne.
Qed.

Lemma write_failure_gives_none_witness :
  ∃ w1,
    mops_report.fetch_one no_directory_env (utf8 "a/b") 2024 1 ∅ (World ∅ [])
    = (Returned {[utf8 "a/b_2024Q1" := None]}, w1)
    ∧ trace w1
      = [] ++ [DriverGet (mops_report.report_url (utf8 "a/b") 2024 1)]
    ∧ (∀ v, files w1 !! utf8 "a/b_2024Q1.json" ≠ Some (Dumped v))
    ∧ (is_Some (open_write no_directory_env 1 (utf8 "a/b_2024Q1.json")) →
       files w1 = ∅)
    ∧ ∀ f, f ≠ utf8 "a/b_2024Q1.json" → files w1 !! f = (∅ : gmap _ file_content) !! f.
Proof.
  destruct (write_failure_gives_none no_directory_env (utf8 "a/b") 2024 1 ∅
              (World ∅ [])
              [Some (utf8 "資產 100",
                     [[(SStr (utf8 "會計項目"), SStr (utf8 "資產"));
                       (SStr (utf8 "金額"), SInt 100)]]);
               None;
               Some (utf8 "負債 40",
                     [[(SStr (utf8 "會計項目"), SStr (utf8 "負債"));
                       (SStr (utf8 "金額"), SInt 40)]])])
    as (w1 & Hrun & Htrace & Hfile & Hopen & Hother).
  - reflexivity.
  - reflexivity.
  - left. vm_compute. by eexists.
  - exists w1. rewrite insert_empty in Hrun.
    change (mops_report.filename_of (mops_report.composite_key (utf8 "a/b") 2024 1))
      with (utf8 "a/b_2024Q1.json") in *.
    change (mops_report.composite_key (utf8 "a/b") 2024 1)
      with (utf8 "a/b_2024Q1") in Hrun.
    done.
Defined.

(** X26. When the first call returned a mapping without [None] entry whose
    records all have distinct strings for keys and no NaN cell, a second
    call with the same arguments returns the very same mapping and leaves
    the world as it was, whatever the network would answer. *)
Theorem fetch_again_identical E1 E2 stock_ids years seasons w r w1 :
  mops_report.fetch_mops_report E1 stock_ids years seasons w = (Returned r, w1) →
  (∀ k, r !! k ≠ Some None) →
  (∀ k tabs, r !! k = Some (Some tabs) →
             Forall (λ t, Forall json_native (data t)) tabs) →
  mops_report.fetch_mops_report E2 stock_ids years seasons w1 = (Returned r, w1).
Proof.
  rewrite !fetch_flat. intros Hrun Hfull Hkeys.
  destruct (fetch_loop_returned _ _ _ _ _ _ Hrun (cache_inv_empty w))
    as [Hinv Hdom].
  rewrite (fetch_again_reloaded E2 _ r w1 Hinv); [|by intros k; rewrite Hdom,
    lookup_empty; split; [intros [[? [=]]|?]|right]|done].
  f_equal. f_equal. apply map_eq. intros k. rewrite lookup_fmap.
  destruct (r !! k) as [[tabs|]|] eqn:Hk; [|done..]. simpl. f_equal.
  apply (json_reload_str_keyed tabs).
  eapply Forall_impl; [by eapply Hkeys|]. intros t Ht. simpl in Ht.
  eapply Forall_impl; [exact Ht|]. by intros d [Hd _].
Qed.

Lemma fetch_again_identical_witness :
  mops_report.fetch_mops_report offline_after_first_env
    [utf8 "2330"] [2024] [1] cached_world
  = (Returned sample_result, cached_world).
Proof.
  apply (fetch_again_identical filings_env offline_after_first_env
           [utf8 "2330"] [2024] [1] (World ∅ []) sample_result cached_world).
  - vm_compute. reflexivity.
  - intros k Hk. unfold sample_result in Hk.
    apply lookup_singleton_Some in Hk as [_ Hk]. discriminate.
  - intros k tabs Hk. unfold sample_result in Hk.
    apply lookup_singleton_Some in Hk as [_ [= <-]].
    unfold sample_tables.
    repeat (apply Forall_cons; split); try apply Forall_nil; simpl.
    all: repeat (apply Forall_cons; split); try apply Forall_nil.
    all: try exact Logic.I.
    all: split; [split|].
    all: try (by apply (bool_decide_unpack _)).
    all: repeat (apply Forall_cons; split); try apply Forall_nil.
    all: first [by eexists | discriminate].
Defined.
